(** * Trace/observation correlation model of the budget tracing examples

    A shallow embedding of [examples/tracing.py] and
    [examples/categorization_example.py].

    Python values are modelled by [PyVal]; dictionaries are finite maps
    with string keys.  An exception is its class together with the text
    [str(e)] gives.  The Langfuse trace object is an external collaborator:
    it is modelled by the log of the method calls made on it, kept in a
    store of traces indexed by creation order, so that a trace handle
    aliases the one shared object.  The calls on a trace object return;
    what the backend does with them is not part of the model.  Exceptions
    are those that derive from [Exception].  Strings are byte strings; the
    string helpers agree with Python on ASCII text.  Floats are binary64;
    their rendering as text is taken from the environment. *)

From Stdlib Require Import ZArith String Ascii List Lia PrimFloat SpecFloat FloatOps.
From stdpp Require Import gmap strings list fin_maps pretty.

Set Warnings "-register-all,-inexact-float".
Set Default Proof Using "Type".

Local Open Scope string_scope.
Local Open Scope Z_scope.
Local Open Scope list_scope.

(** ** Python values and built-ins *)

Module Py.

Inductive PyVal : Type :=
| VNone
| VBool (b : bool)
| VInt (z : Z)
| VFloat (x : float)
| VStr (s : string)
| VList (l : list PyVal)
| VDict (d : gmap string PyVal).

Abbreviation Dict := (gmap string PyVal).

(** Truthiness of the two kinds of optional argument the helpers default. *)
Definition truthy_str (o : option string) : bool :=
  match o with
  | None => false
  | Some s => negb (String.eqb s "")
  end.

Definition truthy_dict (o : option Dict) : bool :=
  match o with
  | None => false
  | Some d => negb (bool_decide (d = ∅))
  end.

(** [x or ""] and [x or {}]. *)
Definition or_empty_str (o : option string) : string :=
  match o with
  | Some s => if truthy_str o then s else ""
  | None => ""
  end.

Definition or_empty_dict (o : option Dict) : Dict :=
  match o with
  | Some d => if truthy_dict o then d else ∅
  | None => ∅
  end.

(** [str.upper] on ASCII letters. *)
Definition upper_ascii (c : ascii) : ascii :=
  let n := nat_of_ascii c in
  if ((97 <=? n) && (n <=? 122))%nat then ascii_of_nat (n - 32) else c.

Fixpoint upper (s : string) : string :=
  match s with
  | EmptyString => EmptyString
  | String c r => String (upper_ascii c) (upper r)
  end.

(** [str.strip] with no argument: white space is removed at both ends. *)
Definition isspace (c : ascii) : bool :=
  let n := nat_of_ascii c in
  (((9 <=? n) && (n <=? 13)) || ((28 <=? n) && (n <=? 32)))%nat.

Fixpoint lstrip (s : string) : string :=
  match s with
  | EmptyString => EmptyString
  | String c r => if isspace c then lstrip r else s
  end.

Fixpoint rstrip (s : string) : string :=
  match s with
  | EmptyString => EmptyString
  | String c r =>
      match rstrip r with
      | EmptyString => if isspace c then EmptyString else String c EmptyString
      | r' => String c r'
      end
  end.

Definition strip (s : string) : string := rstrip (lstrip s).

(** [sub in s]. *)
Fixpoint contains (sub s : string) : bool :=
  String.prefix sub s ||
  match s with
  | EmptyString => false
  | String _ r => contains sub r
  end.

(** The format specification [:40s] and its like: left-justified in a
    field of [width] characters, never truncated. *)
Fixpoint spaces (n : nat) : string :=
  match n with
  | O => EmptyString
  | S k => String " " (spaces k)
  end.

Definition ljust (width : nat) (s : string) : string :=
  s +:+ spaces (width - String.length s).

(** [int(x)] of a float: truncation towards zero; [None] stands for the
    arguments Python refuses, an infinity or a NaN. *)
Definition is_nan (x : float) : bool :=
  match Prim2SF x with S754_nan => true | _ => false end.

Definition int_of_float (x : float) : option Z :=
  match Prim2SF x with
  | S754_zero _ => Some 0
  | S754_finite sign m e =>
      let mag := if 0 <=? e then Z.pos m * 2 ^ e else Z.pos m / 2 ^ (- e) in
      Some (if sign then - mag else mag)
  | S754_infinity _ | S754_nan => None
  end.

(** [type(v).__name__]. *)
Definition type_name (v : PyVal) : string :=
  match v with
  | VNone => "NoneType"
  | VBool _ => "bool"
  | VInt _ => "int"
  | VFloat _ => "float"
  | VStr _ => "str"
  | VList _ => "list"
  | VDict _ => "dict"
  end.

End Py.
Export Py.

(** ** Exceptions *)

Module Exc.

(** The exception classes the two modules raise, catch or can be handed by
    the [requests] library.  Every class here derives from [Exception].
    [OtherException] is any further class that derives neither from
    [requests.exceptions.ConnectionError] nor from
    [requests.exceptions.Timeout]. *)
Inductive ExcClass : Type :=
| ValueError
| OverflowError
| KeyError
| AttributeError
| ConnectionError
| TimeoutError
| RuntimeError
| RequestException
| HTTPError
| JSONDecodeError
| requests_ConnectionError
| ProxyError
| SSLError
| requests_Timeout
| ConnectTimeout
| ReadTimeout
| OtherException (name : string).

(** [cls.__name__]. *)
Definition class_name (c : ExcClass) : string :=
  match c with
  | ValueError => "ValueError"
  | OverflowError => "OverflowError"
  | KeyError => "KeyError"
  | AttributeError => "AttributeError"
  | ConnectionError => "ConnectionError"
  | TimeoutError => "TimeoutError"
  | RuntimeError => "RuntimeError"
  | RequestException => "RequestException"
  | HTTPError => "HTTPError"
  | JSONDecodeError => "JSONDecodeError"
  | requests_ConnectionError => "ConnectionError"
  | ProxyError => "ProxyError"
  | SSLError => "SSLError"
  | requests_Timeout => "Timeout"
  | ConnectTimeout => "ConnectTimeout"
  | ReadTimeout => "ReadTimeout"
  | OtherException name => name
  end.

(** [issubclass(c, requests.exceptions.ConnectionError)]. *)
Definition is_requests_ConnectionError (c : ExcClass) : bool :=
  match c with
  | requests_ConnectionError | ProxyError | SSLError | ConnectTimeout => true
  | _ => false
  end.

(** [issubclass(c, requests.exceptions.Timeout)]. *)
Definition is_requests_Timeout (c : ExcClass) : bool :=
  match c with
  | requests_Timeout | ConnectTimeout | ReadTimeout => true
  | _ => false
  end.

(** A raised exception: its class and [str(e)]. *)
Record PyExc : Type := mkExc { exc_class : ExcClass; exc_str : string }.

End Exc.
Export Exc.

(** ** The trace backend *)

Module Langfuse.

(** One method call on a trace object, with the keyword arguments it was
    given. *)
Inductive TraceCall : Type :=
| span (name input output : string) (metadata : Dict)
| generation (name model input output : string) (usage metadata : Dict)
| update (output : PyVal).

Record Trace : Type := mkTrace {
  trace_name : string;
  user_id : option string;
  session_id : option string;
  trace_metadata : Dict;
  calls : list TraceCall
}.

(** The client object returned by [Langfuse(...)]. *)
Record Client : Type := mkClient {
  public_key : string;
  secret_key : string;
  host : string
}.

Definition record (c : TraceCall) (t : Trace) : Trace :=
  mkTrace (trace_name t) (user_id t) (session_id t) (trace_metadata t)
          (calls t ++ [c]).

Definition is_observation (c : TraceCall) : bool :=
  match c with
  | span _ _ _ _ | generation _ _ _ _ _ _ => true
  | update _ => false
  end.

(** The ordered observation sequence of a trace. *)
Definition observations (t : Trace) : list TraceCall :=
  filter (fun c => is_observation c = true) (calls t).

(** The outputs assigned to a trace, oldest first. *)
Definition output_updates (t : Trace) : list PyVal :=
  omap (fun c => match c with update o => Some o | _ => None end) (calls t).

(** The terminal output of a trace, when one was assigned. *)
Definition output (t : Trace) : option PyVal := last (output_updates t).

End Langfuse.
Export Langfuse.

(** ** The world the programs run in *)

Module Runtime.

(** An HTTP request as [requests.post(url, json=..., timeout=...)] issues
    it, and what the library hands back. *)
Record Request : Type := mkRequest {
  req_url : string;
  req_json : Dict;
  req_timeout : Z
}.

Record Response : Type := mkResponse {
  status_code : Z;
  reason : string;
  (** [response.json()]: the decoded body, or the exception raised while
      decoding it. *)
  json : PyExc + PyVal
}.

Inductive PostOutcome : Type :=
| PostRaises (e : PyExc)
| PostReturns (r : Response).

(** What the programs read from outside: the process environment (after
    [load_dotenv]), the wall clock, the inference server, and Python's
    rendering of floats and containers as text.  The clock and the server
    are indexed by the number of earlier calls, so that two equal requests
    may meet different fates. *)
Record Env : Type := mkEnv {
  environ : gmap string string;
  time_time : nat -> float;
  requests_post : nat -> Request -> PostOutcome;
  float_repr : float -> string;
  float_format_2f : float -> string;
  container_repr : PyVal -> string
}.

Record World : Type := mkWorld {
  traces : list Trace;
  http_log : list Request;
  clock_reads : nat;
  stdout : list string
}.

Definition initial_world : World := mkWorld [] [] 0%nat [].

(** A handle on a trace object: its position in the store. *)
Abbreviation TraceHandle := nat.

(** Computations that read and change the world and either return or
    raise.  What was done before an exception stays done. *)
Inductive Outcome (A : Type) : Type :=
| Return (a : A)
| Raise (e : PyExc).
Arguments Return {A} a.
Arguments Raise {A} e.

Definition M (A : Type) : Type := World -> Outcome A * World.

#[global] Instance M_ret : MRet M := fun A a w => (Return a, w).

#[global] Instance M_bind : MBind M := fun A B f m w =>
  match m w with
  | (Return a, w') => f a w'
  | (Raise e, w') => (Raise e, w')
  end.

Definition raise {A : Type} (e : PyExc) : M A := fun w => (Raise e, w).

(** [try: body  except Exception as e: handler e]. *)
Definition try_except {A : Type} (body : M A) (handler : PyExc -> M A) : M A :=
  fun w =>
    match body w with
    | (Return a, w') => (Return a, w')
    | (Raise e, w') => handler e w'
    end.

(** [os.getenv(key)] and [os.getenv(key, default)]. *)
Definition getenv (env : Env) (key : string) : option string :=
  environ env !! key.

Definition getenv_default (env : Env) (key default : string) : string :=
  match environ env !! key with
  | Some v => v
  | None => default
  end.

(** [str(v)], as an f-string field renders a value. *)
Definition py_str (env : Env) (v : PyVal) : string :=
  match v with
  | VNone => "None"
  | VBool true => "True"
  | VBool false => "False"
  | VInt z => pretty z
  | VFloat x => float_repr env x
  | VStr s => s
  | VList _ | VDict _ => container_repr env v
  end.

(** [print(line)]. *)
Definition print (line : string) : M unit := fun w =>
  (Return tt, mkWorld (traces w) (http_log w) (clock_reads w) (stdout w ++ [line])).

(** [time.time()]. *)
Definition read_clock (env : Env) : M float := fun w =>
  (Return (time_time env (clock_reads w)),
   mkWorld (traces w) (http_log w) (S (clock_reads w)) (stdout w)).

(** [requests.post(url, json=data, timeout=t)]. *)
Definition post (env : Env) (url : string) (data : Dict) (timeout : Z) : M Response :=
  fun w =>
    let rq := mkRequest url data timeout in
    let w' := mkWorld (traces w) (http_log w ++ [rq]) (clock_reads w) (stdout w) in
    match requests_post env (length (http_log w)) rq with
    | PostRaises e => (Raise e, w')
    | PostReturns r => (Return r, w')
    end.

(** [response.raise_for_status()]. *)
Definition raise_for_status (url : string) (r : Response) : M unit :=
  if (400 <=? status_code r) && (status_code r <? 500) then
    raise (mkExc HTTPError (pretty (status_code r) +:+ " Client Error: " +:+
                            reason r +:+ " for url: " +:+ url))
  else if (500 <=? status_code r) && (status_code r <? 600) then
    raise (mkExc HTTPError (pretty (status_code r) +:+ " Server Error: " +:+
                            reason r +:+ " for url: " +:+ url))
  else mret tt.

(** [response.json()]. *)
Definition response_json (r : Response) : M PyVal :=
  match json r with
  | inl e => raise e
  | inr v => mret v
  end.

(** [langfuse.trace(...)]: a new trace object joins the store. *)
Definition langfuse_trace (name : string) (user_id session_id : option string)
    (metadata : Dict) : M TraceHandle := fun w =>
  (Return (length (traces w)),
   mkWorld (traces w ++ [mkTrace name user_id session_id metadata []])
           (http_log w) (clock_reads w) (stdout w)).

(** A method call on the trace object behind a handle. *)
Definition trace_call (trace : TraceHandle) (c : TraceCall) : M unit := fun w =>
  (Return tt,
   mkWorld (alter (record c) trace (traces w))
           (http_log w) (clock_reads w) (stdout w)).

End Runtime.
Export Runtime.

(** ** examples/tracing.py *)

Module Tracing.

Section Tracing.
Variable env : Env.

(** The text of the [ValueError] raised for missing keys. *)
Definition missing_keys_message (project_name public_key_var secret_key_var : string)
    : string :=
  "Missing Langfuse API keys for project '" +:+ project_name +:+ "'. " +:+
  "Please set " +:+ public_key_var +:+ " and " +:+ secret_key_var +:+
  " in your .env file.".

Definition get_langfuse_client (project_name : string) (langfuse_host : string)
    : M Client :=
  let public_key_var := upper project_name +:+ "_PUBLIC_KEY" in
  let secret_key_var := upper project_name +:+ "_SECRET_KEY" in
  let public_key := getenv env public_key_var in
  let secret_key := getenv env secret_key_var in
  if negb (truthy_str public_key) || negb (truthy_str secret_key) then
    raise (mkExc ValueError
             (missing_keys_message project_name public_key_var secret_key_var))
  else
    mret (mkClient (default "" public_key) (default "" secret_key) langfuse_host).

Definition default_langfuse_host : string := "http://localhost:3001".

End Tracing.

Definition create_trace (langfuse : Client) (name : string)
    (user_id session_id : option string) (metadata : option Dict) : M TraceHandle :=
  langfuse_trace name user_id session_id (or_empty_dict metadata).

Definition add_generation (trace : TraceHandle) (name model input_ output : string)
    (usage metadata : option Dict) : M unit :=
  trace_call trace
    (generation name model input_ output (or_empty_dict usage) (or_empty_dict metadata)).

Definition add_span (trace : TraceHandle) (name : string)
    (input_ output : option string) (metadata : option Dict) : M unit :=
  trace_call trace
    (span name (or_empty_str input_) (or_empty_str output) (or_empty_dict metadata)).

End Tracing.
Export Tracing.

(** ** examples/categorization_example.py *)

Module Categorization.

Record Transaction : Type := mkTransaction {
  id : string;
  description : string;
  amount : float;
  date : string
}.

Record TransactionCategorizer : Type := mkCategorizer {
  langfuse : Client;
  project_name : string;
  categorizer_session_id : string
}.

Definition PROJECT_NAME : string := "budget_claude".

Definition nl : string := String (ascii_of_nat 10) EmptyString.

(** [int(x)] on a float. *)
Definition py_int (x : float) : M Z :=
  match int_of_float x with
  | Some z => mret z
  | None =>
      if is_nan x
      then raise (mkExc ValueError "cannot convert float NaN to integer")
      else raise (mkExc OverflowError "cannot convert float infinity to integer")
  end.

Definition no_attribute (v : PyVal) (attr : string) : PyExc :=
  mkExc AttributeError
    ("'" +:+ type_name v +:+ "' object has no attribute '" +:+ attr +:+ "'").

(** [v.get(key, default)]. *)
Definition method_get (v : PyVal) (key : string) (default : PyVal) : M PyVal :=
  match v with
  | VDict d =>
      match d !! key with
      | Some x => mret x
      | None => mret default
      end
  | _ => raise (no_attribute v "get")
  end.

(** [v.strip()]. *)
Definition method_strip (v : PyVal) : M string :=
  match v with
  | VStr s => mret (strip s)
  | _ => raise (no_attribute v "strip")
  end.

(** [d[key]]. *)
Definition subscript (d : Dict) (key : string) : M PyVal :=
  match d !! key with
  | Some x => mret x
  | None => raise (mkExc KeyError ("'" +:+ key +:+ "'"))
  end.

Section Categorization.
Variable env : Env.

Definition OLLAMA_API_URL : string :=
  getenv_default env "OLLAMA_API_URL" "http://localhost:11434".

Definition OLLAMA_MODEL : string :=
  getenv_default env "OLLAMA_MODEL" "llama3.1:8b".

Definition __init__ (project_name : string) : M TransactionCategorizer :=
  langfuse ← get_langfuse_client env project_name default_langfuse_host;
  now ← read_clock env;
  seconds ← py_int now;
  mret (mkCategorizer langfuse project_name
          (project_name +:+ "_" +:+ pretty seconds)).

Definition _create_prompt (transaction : Transaction) : string :=
  "Categorize the following financial transaction into ONE of these categories:" +:+ nl +:+
  "- Food & Dining" +:+ nl +:+
  "- Transportation" +:+ nl +:+
  "- Shopping" +:+ nl +:+
  "- Bills & Utilities" +:+ nl +:+
  "- Healthcare" +:+ nl +:+
  "- Entertainment" +:+ nl +:+
  "- Other" +:+ nl +:+
  nl +:+
  "Transaction Description: " +:+ description transaction +:+ nl +:+
  "Amount: $" +:+ float_format_2f env (amount transaction) +:+ nl +:+
  nl +:+
  "Respond with ONLY the category name, nothing else.".

Definition request_data (prompt : string) : Dict :=
  <["model" := VStr OLLAMA_MODEL]>
  (<["prompt" := VStr prompt]>
  (<["temperature" := VFloat 0.3]>
  (<["top_p" := VFloat 0.9]>
  (<["stream" := VBool false]> ∅)))).

(** The three messages [_call_ollama] raises with. *)
Definition connect_message (e : PyExc) : string :=
  "Could not connect to Ollama at " +:+ OLLAMA_API_URL +:+ ". " +:+
  "Make sure Ollama is running and " +:+ OLLAMA_MODEL +:+ " is loaded. " +:+
  "Error: " +:+ exc_str e.

Definition timeout_message : string :=
  "Request to Ollama timed out. The model " +:+ OLLAMA_MODEL +:+ " might be slow.".

Definition other_message (e : PyExc) : string :=
  "Error calling Ollama: " +:+ exc_str e.

(** The [try] block of [_call_ollama]. *)
Definition call_ollama_body (transaction : Transaction) (prompt : string)
    (trace : TraceHandle) : M (string * float) :=
  let url := OLLAMA_API_URL +:+ "/api/generate" in
  response ← post env url (request_data prompt) 30;
  raise_for_status url response;;
  response_data ← response_json response;
  text ← method_get response_data "response" (VStr "");
  category ← method_strip text;
  let confidence := 0.95%float in
  prompt_tokens ← method_get response_data "prompt_eval_count" (VInt 0);
  completion_tokens ← method_get response_data "eval_count" (VInt 0);
  add_generation trace "ollama_categorization" OLLAMA_MODEL prompt category
    (Some (<["prompt_tokens" := prompt_tokens]>
           (<["completion_tokens" := completion_tokens]> ∅)))
    (Some (<["temperature" := VFloat 0.3]>
           (<["top_p" := VFloat 0.9]>
           (<["ollama_host" := VStr OLLAMA_API_URL]> ∅))));;
  mret (category, confidence).

(** The three [except] clauses of [_call_ollama], tried in order. *)
Definition call_ollama_except (e : PyExc) : M (string * float) :=
  if is_requests_ConnectionError (exc_class e) then
    raise (mkExc ConnectionError (connect_message e))
  else if is_requests_Timeout (exc_class e) then
    raise (mkExc TimeoutError timeout_message)
  else
    raise (mkExc RuntimeError (other_message e)).

Definition _call_ollama (transaction : Transaction) (prompt : string)
    (trace : TraceHandle) : M (string * float) :=
  try_except (call_ollama_body transaction prompt trace) call_ollama_except.

Definition trace_metadata_of (transaction : Transaction) : Dict :=
  <["transaction_id" := VStr (id transaction)]>
  (<["amount" := VFloat (amount transaction)]>
  (<["date" := VStr (date transaction)]> ∅)).

Definition result_of (transaction : Transaction) (category : string)
    (confidence elapsed_time : float) : Dict :=
  <["transaction_id" := VStr (id transaction)]>
  (<["description" := VStr (description transaction)]>
  (<["amount" := VFloat (amount transaction)]>
  (<["category" := VStr category]>
  (<["confidence" := VFloat confidence]>
  (<["processing_time_ms" := VFloat (elapsed_time * 1000)%float]> ∅))))).

(** The [try] block of [categorize_transaction]: the four steps and the
    output update. *)
Definition categorize_steps (transaction : Transaction) (trace : TraceHandle)
    : M Dict :=
  add_span trace "prepare_transaction_data"
    (Some ("ID: " +:+ id transaction +:+ ", Desc: " +:+ description transaction +:+
           ", Amount: " +:+ float_repr env (amount transaction)))
    (Some "Transaction data prepared")
    (Some {["step" := VInt 1]});;
  let prompt := _create_prompt transaction in
  add_span trace "create_prompt" None (Some prompt)
    (Some (<["step" := VInt 2]>
           (<["prompt_length" := VInt (Z.of_nat (String.length prompt))]> ∅)));;
  start_time ← read_clock env;
  '(category, confidence) ← _call_ollama transaction prompt trace;
  end_time ← read_clock env;
  let elapsed_time := (end_time - start_time)%float in
  add_span trace "validate_result"
    (Some ("Category: " +:+ category +:+ ", Confidence: " +:+ float_repr env confidence))
    (Some "Validation passed")
    (Some (<["step" := VInt 4]> (<["valid" := VBool true]> ∅)));;
  let result := result_of transaction category confidence elapsed_time in
  trace_call trace (update (VDict result));;
  mret result.

(** The [except] clause of [categorize_transaction]. *)
Definition categorize_except (trace : TraceHandle) (e : PyExc) : M Dict :=
  add_span trace "error"
    (Some (class_name (exc_class e)))
    (Some (exc_str e))
    (Some {["error" := VBool true]});;
  raise e.

Definition categorize_transaction (self : TransactionCategorizer)
    (transaction : Transaction) : M Dict :=
  trace ← create_trace (langfuse self) "categorize_transaction"
             (Some "system") (Some (categorizer_session_id self))
             (Some (trace_metadata_of transaction));
  try_except (categorize_steps transaction trace) (categorize_except trace).

Definition error_result (transaction : Transaction) (e : PyExc) : Dict :=
  <["transaction_id" := VStr (id transaction)]>
  (<["description" := VStr (description transaction)]>
  (<["amount" := VFloat (amount transaction)]>
  (<["error" := VStr (exc_str e)]> ∅))).

(** The [except] clause of the loop body of [categorize_batch]; [results]
    is the list as it stands when the exception arrives. *)
Definition batch_except (transaction : Transaction) (results : list Dict)
    (e : PyExc) : M (list Dict) :=
  print ("✗ Failed: " +:+ ljust 40 (description transaction) +:+ " → " +:+ exc_str e);;
  mret (results ++ [error_result transaction e]).

(** One turn of the loop of [categorize_batch]. *)
Definition batch_step (self : TransactionCategorizer) (results : list Dict)
    (transaction : Transaction) : M (list Dict) := fun w =>
  match categorize_transaction self transaction w with
  | (Return result, w1) =>
      let results := results ++ [result] in
      try_except
        (category ← subscript result "category";
         print ("✓ Categorized: " +:+ ljust 40 (description transaction) +:+
                " → " +:+ py_str env category);;
         mret results)
        (batch_except transaction results) w1
  | (Raise e, w1) => batch_except transaction results e w1
  end.

Fixpoint batch_loop (self : TransactionCategorizer) (results : list Dict)
    (transactions : list Transaction) : M (list Dict) :=
  match transactions with
  | [] => mret results
  | transaction :: rest =>
      results' ← batch_step self results transaction;
      batch_loop self results' rest
  end.

Definition categorize_batch (self : TransactionCategorizer)
    (transactions : list Transaction) : M (list Dict) :=
  batch_loop self [] transactions.

End Categorization.

End Categorization.
Export Categorization.

(** ** The two scripts: the self-test of tracing.py and [main] *)

Module Scripts.

(** [s * n]. *)
Fixpoint str_repeat (s : string) (n : nat) : string :=
  match n with
  | O => EmptyString
  | S k => s +:+ str_repeat s k
  end.

(** The classes an [except ValueError] clause catches. *)
Definition is_ValueError (c : ExcClass) : bool :=
  match c with
  | ValueError | JSONDecodeError => true
  | _ => false
  end.

(** [try: body  except <classes> as e: handler e]: an exception of another
    class passes through. *)
Definition try_except_class {A : Type} (catches : ExcClass -> bool)
    (body : M A) (handler : PyExc -> M A) : M A :=
  fun w =>
    match body w with
    | (Return a, w') => (Return a, w')
    | (Raise e, w') => if catches (exc_class e) then handler e w' else (Raise e, w')
    end.

Definition TypeError (message : string) : PyExc :=
  mkExc (OtherException "TypeError") message.

(** [float(z)] of an integer: the nearest binary64, ties to even. *)
Definition float_of_int (z : Z) : M float :=
  match binary_normalize prec emax z 0 false with
  | S754_infinity _ => raise (mkExc OverflowError "int too large to convert to float")
  | x => mret (SF2Prim x)
  end.

(** A running total: an [int] until the first float is added. *)
Inductive Number : Type :=
| NInt (z : Z)
| NFloat (x : float).

(** [total += v], for a total that is a number. *)
Definition number_iadd (total : Number) (v : PyVal) : M Number :=
  match total, v with
  | NInt a, VInt b => mret (NInt (a + b))
  | NInt a, VBool b => mret (NInt (a + Z.b2z b))
  | NInt a, VFloat y => x ← float_of_int a; mret (NFloat (x + y))
  | NFloat x, VFloat y => mret (NFloat (x + y))
  | NFloat x, VInt b => y ← float_of_int b; mret (NFloat (x + y))
  | NFloat x, VBool b => y ← float_of_int (Z.b2z b); mret (NFloat (x + y))
  | NInt _, _ =>
      raise (TypeError ("unsupported operand type(s) for +=: 'int' and '" +:+
                        type_name v +:+ "'"))
  | NFloat _, _ =>
      raise (TypeError ("unsupported operand type(s) for +=: 'float' and '" +:+
                        type_name v +:+ "'"))
  end.

Definition unknown_format_code (code : string) (v : PyVal) : PyExc :=
  mkExc ValueError
    ("Unknown format code '" +:+ code +:+ "' for object of type '" +:+
     type_name v +:+ "'").

Definition unsupported_format_string (v : PyVal) : PyExc :=
  TypeError ("unsupported format string passed to " +:+ type_name v +:+ ".__format__").

(** An f-string field with the specification [:<width>s]. *)
Definition format_s (width : nat) (v : PyVal) : M string :=
  match v with
  | VStr s => mret (ljust width s)
  | VInt _ | VBool _ | VFloat _ => raise (unknown_format_code "s" v)
  | VNone | VList _ | VDict _ => raise (unsupported_format_string v)
  end.

(** An f-string field with a float specification, such as [:8.2f] or
    [:.2%]; [render] is what the specification makes of a float. *)
Definition format_float (code : string) (render : float -> string) (v : PyVal)
    : M string :=
  match v with
  | VFloat x => mret (render x)
  | VInt z => x ← float_of_int z; mret (render x)
  | VBool b => x ← float_of_int (Z.b2z b); mret (render x)
  | VStr _ => raise (unknown_format_code code v)
  | VNone | VList _ | VDict _ => raise (unsupported_format_string v)
  end.

Definition number_value (total : Number) : PyVal :=
  match total with
  | NInt z => VInt z
  | NFloat x => VFloat x
  end.

(** Python's rendering of a float under the two specifications [main]
    uses. *)
Record Formats : Type := mkFormats {
  format_8_2f : float -> string;
  format_2_percent : float -> string
}.

Section Scripts.
Variable env : Env.
Variable formats : Formats.

(** The block under [if __name__ == "__main__"] of tracing.py. *)
Definition tracing_main : M unit :=
  try_except_class is_ValueError
    (client ← get_langfuse_client env "budget_claude" default_langfuse_host;
     print "✓ Successfully initialized Langfuse client")
    (fun e => print ("✗ Error: " +:+ exc_str e)).

Definition rule : string := str_repeat "=" 60.

Definition sample_transactions : list Transaction :=
  [ mkTransaction "txn_001" "Starbucks Coffee" 5.50 "2024-01-15";
    mkTransaction "txn_002" "Uber to Airport" 42.00 "2024-01-15";
    mkTransaction "txn_003" "Whole Foods Groceries" 87.50 "2024-01-15";
    mkTransaction "txn_004" "Movie Tickets" 28.00 "2024-01-15";
    mkTransaction "txn_005" "CVS Pharmacy" 15.30 "2024-01-15" ].

(** The line [main] prints for a result without ["error"]. *)
Definition show_categorized (result : Dict) : M unit :=
  transaction_id ← subscript result "transaction_id";
  field1 ← format_s 10 transaction_id;
  amount ← subscript result "amount";
  field2 ← format_float "f" (format_8_2f formats) amount;
  category ← subscript result "category";
  field3 ← format_s 20 category;
  confidence ← subscript result "confidence";
  field4 ← format_float "%" (format_2_percent formats) confidence;
  print ("ID: " +:+ field1 +:+ " | Amount: $" +:+ field2 +:+ " | " +:+
         "Category: " +:+ field3 +:+ " | Confidence: " +:+ field4).

(** The line [main] prints for a result with ["error"]. *)
Definition show_failed (result : Dict) : M unit :=
  transaction_id ← subscript result "transaction_id";
  field1 ← format_s 10 transaction_id;
  error ← subscript result "error";
  print ("ID: " +:+ field1 +:+ " | ERROR: " +:+ py_str env error).

(** The loop of [main] over the results, threading the total. *)
Fixpoint show_results (results : list Dict) (total_amount : Number) : M Number :=
  match results with
  | [] => mret total_amount
  | result :: rest =>
      match result !! "error" with
      | None =>
          amount ← subscript result "amount";
          total_amount ← number_iadd total_amount amount;
          show_categorized result;;
          show_results rest total_amount
      | Some _ =>
          show_failed result;;
          show_results rest total_amount
      end
  end.

(** The [try] statement of [main]: the categorizer, or [None] where [main]
    returns from the [except] clause. *)
Definition main_start : M (option TransactionCategorizer) :=
  try_except_class is_ValueError
    (categorizer ← __init__ env PROJECT_NAME;
     print ("✓ Langfuse client initialized for project: " +:+ PROJECT_NAME);;
     print ("✓ Using Ollama at: " +:+ OLLAMA_API_URL env);;
     print ("✓ Using model: " +:+ OLLAMA_MODEL env +:+ nl);;
     mret (Some categorizer))
    (fun e =>
       print ("✗ Error: " +:+ exc_str e);;
       print (nl +:+ "Please ensure your .env file is configured correctly.");;
       mret None).

Definition main : M unit :=
  print (nl +:+ rule);;
  print "Transaction Categorization with Langfuse Tracing";;
  print (rule +:+ nl);;
  started ← main_start;
  match started with
  | None => mret tt
  | Some categorizer =>
      print ("Processing " +:+ pretty (length sample_transactions) +:+
             " transactions..." +:+ nl);;
      results ← categorize_batch env categorizer sample_transactions;
      print (nl +:+ rule);;
      print "Results";;
      print (rule +:+ nl);;
      total_amount ← show_results results (NInt 0);
      total ← format_float "f" (format_8_2f formats) (number_value total_amount);
      print (nl +:+ ljust 30 "Total Amount Processed" +:+ ": $" +:+ total);;
      print (nl +:+ "✓ Traces have been sent to Langfuse!");;
      print ("✓ View your traces at: http://localhost:3001/project/" +:+ PROJECT_NAME);;
      print (rule +:+ nl)
  end.

End Scripts.

End Scripts.
Export Scripts.

(** ** Sequences of recorder calls and the success scenario *)

Module Scenario.

(** A call of one of the two recorders of [tracing.py], with the arguments
    the caller passed. *)
Inductive RecorderCall : Type :=
| record_span (name : string) (input_ output : option string)
    (metadata : option Dict)
| record_generation (name model input_ output : string)
    (usage metadata : option Dict).

Definition run_recorder (trace : TraceHandle) (c : RecorderCall) : M unit :=
  match c with
  | record_span name input_ output metadata =>
      add_span trace name input_ output metadata
  | record_generation name model input_ output usage metadata =>
      add_generation trace name model input_ output usage metadata
  end.

Fixpoint run_recorders (trace : TraceHandle) (cs : list RecorderCall) : M unit :=
  match cs with
  | [] => mret tt
  | c :: rest => run_recorder trace c;; run_recorders trace rest
  end.

(** The observation a recorder call hands to the trace object. *)
Definition observation_of (c : RecorderCall) : TraceCall :=
  match c with
  | record_span name input_ output metadata =>
      span name (or_empty_str input_) (or_empty_str output) (or_empty_dict metadata)
  | record_generation name model input_ output usage metadata =>
      generation name model input_ output (or_empty_dict usage) (or_empty_dict metadata)
  end.

(** Scenario 1: a client for project P, one trace, a span, a generation,
    and the closing output update. *)
Definition scenario_usage : Dict :=
  <["prompt_tokens" := VInt 5]> (<["completion_tokens" := VInt 1]> ∅).

Definition scenario_output : PyVal := VDict {["result" := VStr "y"]}.

Definition scenario_1 (env : Env) : M TraceHandle :=
  langfuse ← get_langfuse_client env "P" default_langfuse_host;
  trace ← create_trace langfuse "unit" None (Some "P_123") None;
  add_span trace "prepare" None (Some "ready") None;;
  add_generation trace "infer" "m" "x" "y" (Some scenario_usage) None;;
  trace_call trace (update scenario_output);;
  mret trace.

End Scenario.
Export Scenario.

(** ** Concrete surroundings for the examples *)

Module Demo.

(** Python's renderings of the floats the examples meet. *)
Definition demo_repr (x : float) : string :=
  if (x =? 0.95)%float then "0.95"
  else if (x =? 5.5)%float then "5.5"
  else if (x =? 42)%float then "42.0"
  else "0.0".

Definition demo_format_2f (x : float) : string :=
  if (x =? 5.5)%float then "5.50"
  else if (x =? 42)%float then "42.00"
  else "0.00".

Definition demo_environ : gmap string string :=
  <["P_PUBLIC_KEY" := "pk-lf-1"]>
  (<["P_SECRET_KEY" := "sk-lf-1"]>
  (<["BUDGET_CLAUDE_PUBLIC_KEY" := "pk-lf-2"]>
  (<["BUDGET_CLAUDE_SECRET_KEY" := "sk-lf-2"]> ∅))).

Definition ok_response (body : PyVal) : Response := mkResponse 200 "OK" (inr body).

(** A server that answers every request with [body]. *)
Definition demo_env (server : nat -> Request -> PostOutcome) : Env :=
  mkEnv demo_environ (fun n => 1700000000.5%float) server
        demo_repr demo_format_2f (fun _ => "[]").

Definition always (o : PostOutcome) : nat -> Request -> PostOutcome := fun _ _ => o.

Definition starbucks : Transaction :=
  mkTransaction "txn_001" "Starbucks Coffee" 5.5 "2024-01-15".

Definition uber : Transaction :=
  mkTransaction "txn_002" "Uber to Airport" 42 "2024-01-15".

Definition demo_client : Client := mkClient "pk-lf-2" "sk-lf-2" default_langfuse_host.

Definition demo_self : TransactionCategorizer :=
  mkCategorizer demo_client "budget_claude" "budget_claude_1700000000".

End Demo.
Export Demo.

(** ** The definitions at work *)

Section Examples.

Example upper_project : upper "budget_claude" = "BUDGET_CLAUDE".
Proof. reflexivity. Qed.

Example strip_answer : strip (" Food & Dining " +:+ nl) = "Food & Dining".
Proof. reflexivity. Qed.

Example strip_blank : strip "   " = "".
Proof. reflexivity. Qed.

Example contains_inside : contains "timed out" "Read timed out." = true.
Proof. reflexivity. Qed.

Example contains_not : contains "timed out" "Connection refused" = false.
Proof. reflexivity. Qed.

Example ljust_short : ljust 8 "Uber" = "Uber    ".
Proof. reflexivity. Qed.

Example ljust_long : ljust 2 "Uber" = "Uber".
Proof. reflexivity. Qed.

Example int_of_float_truncates : int_of_float 1700000000.5%float = Some 1700000000.
Proof. reflexivity. Qed.

Example int_of_float_negative : int_of_float (-2.75)%float = Some (-2).
Proof. reflexivity. Qed.

Example int_of_float_infinity : int_of_float infinity = None.
Proof. reflexivity. Qed.

Example or_empty_str_of_empty : or_empty_str (Some "") = "" /\ or_empty_str None = "".
Proof. split; reflexivity. Qed.

Example or_empty_dict_of_none : or_empty_dict None = ∅ /\ or_empty_dict (Some ∅) = ∅.
Proof. split; reflexivity. Qed.

Example connect_timeout_is_both :
  is_requests_ConnectionError ConnectTimeout = true /\
  is_requests_Timeout ConnectTimeout = true.
Proof. split; reflexivity. Qed.

Example init_demo :
  __init__ (demo_env (always (PostReturns (ok_response VNone)))) PROJECT_NAME
    initial_world =
  (Return demo_self, mkWorld [] [] 1%nat []).
Proof. vm_compute. reflexivity. Qed.

End Examples.

(** * Properties *)

(** ** The trace store *)

Section StoreLemmas.

Lemma alter_last {A : Type} (f : A -> A) (l : list A) (x : A) :
  alter f (length l) (l ++ [x]) = l ++ [f x].
Proof.
  induction l as [|a l IH]; simpl; [reflexivity|].
  f_equal. exact IH.
Qed.

Lemma observations_record (c : TraceCall) (t : Trace) :
  observations (record c t) =
  observations t ++ (if is_observation c then [c] else []).
Proof.
  unfold observations, record; simpl.
  rewrite filter_app. f_equal.
  destruct c; reflexivity.
Qed.

Lemma output_updates_record (c : TraceCall) (t : Trace) :
  output_updates (record c t) =
  output_updates t ++ (match c with update o => [o] | _ => [] end).
Proof.
  unfold output_updates, record; simpl.
  rewrite omap_app. f_equal.
  destruct c; reflexivity.
Qed.

Lemma trace_call_lookup (trace : TraceHandle) (c : TraceCall) (w : World) (t : Trace) :
  traces w !! trace = Some t ->
  exists w',
    trace_call trace c w = (Return tt, w') /\
    traces w' !! trace = Some (record c t) /\
    (forall other, other <> trace -> traces w' !! other = traces w !! other) /\
    length (traces w') = length (traces w).
Proof.
  intros Ht. eexists. split; [reflexivity|]. simpl.
  split; [|split].
  - rewrite list_lookup_alter_eq, Ht. reflexivity.
  - intros other Hne. apply list_lookup_alter_ne. congruence.
  - apply length_alter.
Qed.

End StoreLemmas.

(** ** Ordering and appending (C4, C10) *)

Section Recorder.

Lemma run_recorder_lookup (trace : TraceHandle) (c : RecorderCall) (w : World) (t : Trace) :
  traces w !! trace = Some t ->
  exists w',
    run_recorder trace c w = (Return tt, w') /\
    traces w' !! trace = Some (record (observation_of c) t) /\
    (forall other, other <> trace -> traces w' !! other = traces w !! other).
Proof.
  intros Ht.
  destruct (trace_call_lookup trace (observation_of c) w t Ht) as (w' & Hrun & Hl & Ho & _).
  exists w'. split; [|split; assumption].
  destruct c; exact Hrun.
Qed.

Lemma observation_of_is_observation (c : RecorderCall) :
  is_observation (observation_of c) = true.
Proof. destruct c; reflexivity. Qed.

(** C4: the observations a trace holds after a sequence of recorder calls
    are those it held before, followed by one observation per call, in call
    order; the other traces of the store are left alone. *)
Theorem recorded_order_is_call_order
    (cs : list RecorderCall) (trace : TraceHandle) (w : World) (t : Trace) :
  traces w !! trace = Some t ->
  exists w' t',
    run_recorders trace cs w = (Return tt, w') /\
    traces w' !! trace = Some t' /\
    observations t' = observations t ++ map observation_of cs /\
    length (observations t') = (length (observations t) + length cs)%nat /\
    (forall other, other <> trace -> traces w' !! other = traces w !! other).
Proof.
  revert w t. induction cs as [|c cs IH]; intros w t Ht.
  - exists w, t. simpl. rewrite app_nil_r, Nat.add_0_r. auto.
  - destruct (run_recorder_lookup trace c w t Ht) as (w1 & Hrun & Hl & Ho).
    destruct (IH w1 _ Hl) as (w' & t' & Hrest & Hl' & Hobs & Hlen & Ho').
    exists w', t'.
    split; [|split; [exact Hl'|split; [|split]]].
    + simpl. unfold mbind, M_bind. rewrite Hrun. exact Hrest.
    + rewrite Hobs, observations_record, observation_of_is_observation.
      rewrite <- app_assoc. reflexivity.
    + rewrite Hlen, observations_record, observation_of_is_observation.
      rewrite length_app. simpl. lia.
    + intros other Hne. rewrite Ho', Ho by assumption. reflexivity.
Qed.

End Recorder.

Definition demo_trace : Trace :=
  mkTrace "unit" None (Some "P_123") ∅ [].

Definition demo_world : World := mkWorld [demo_trace] [] 0%nat [].

Definition demo_calls : list RecorderCall :=
  [ record_span "prepare" None (Some "ready") None;
    record_generation "infer" "m" "x" "y" (Some scenario_usage) None;
    record_span "check" (Some "y") None (Some {["step" := VInt 3]}) ].

Lemma recorded_order_is_call_order_witness :
  traces demo_world !! 0%nat = Some demo_trace /\
  exists w' t',
    run_recorders 0%nat demo_calls demo_world = (Return tt, w') /\
    traces w' !! 0%nat = Some t' /\
    observations t' = observations demo_trace ++ map observation_of demo_calls /\
    length (observations t') =
      (length (observations demo_trace) + length demo_calls)%nat /\
    (forall other, other <> 0%nat -> traces w' !! other = traces demo_world !! other).
Proof.
  split; [reflexivity|].
  apply (recorded_order_is_call_order demo_calls 0%nat demo_world demo_trace).
  reflexivity.
Defined.

(** ** Running a unit of work on a fresh trace *)

Section FreshTrace.

(** The state of the store while the trace created last is being filled. *)
Lemma trace_call_last (c : TraceCall) (l : list Trace) (t : Trace)
    (h : list Request) (k : nat) (o : list string) :
  trace_call (length l) c (mkWorld (l ++ [t]) h k o) =
  (Return tt, mkWorld (l ++ [record c t]) h k o).
Proof. unfold trace_call; simpl. rewrite alter_last. reflexivity. Qed.

Lemma add_span_last (name : string) (input_ output : option string)
    (metadata : option Dict) (l : list Trace) (t : Trace)
    (h : list Request) (k : nat) (o : list string) :
  add_span (length l) name input_ output metadata (mkWorld (l ++ [t]) h k o) =
  (Return tt,
   mkWorld (l ++ [record (span name (or_empty_str input_) (or_empty_str output)
                            (or_empty_dict metadata)) t]) h k o).
Proof. apply trace_call_last. Qed.

Lemma add_generation_last (name model input_ output : string)
    (usage metadata : option Dict) (l : list Trace) (t : Trace)
    (h : list Request) (k : nat) (o : list string) :
  add_generation (length l) name model input_ output usage metadata
    (mkWorld (l ++ [t]) h k o) =
  (Return tt,
   mkWorld (l ++ [record (generation name model input_ output
                            (or_empty_dict usage) (or_empty_dict metadata)) t]) h k o).
Proof. apply trace_call_last. Qed.

Lemma create_trace_fresh (langfuse : Client) (name : string)
    (user_id session_id : option string) (metadata : option Dict) (w : World) :
  create_trace langfuse name user_id session_id metadata w =
  (Return (length (traces w)),
   mkWorld (traces w ++ [mkTrace name user_id session_id (or_empty_dict metadata) []])
           (http_log w) (clock_reads w) (stdout w)).
Proof. reflexivity. Qed.

Lemma bind_return {A B : Type} (m : M A) (f : A -> M B) (w w' : World) (a : A) :
  m w = (Return a, w') -> (m ≫= f) w = f a w'.
Proof. intros H. unfold mbind, M_bind. rewrite H. reflexivity. Qed.

Lemma bind_raise {A B : Type} (m : M A) (f : A -> M B) (w w' : World) (e : PyExc) :
  m w = (Raise e, w') -> (m ≫= f) w = (Raise e, w').
Proof. intros H. unfold mbind, M_bind. rewrite H. reflexivity. Qed.

End FreshTrace.

(** ** Appending, never replacing (C10) *)

(** C10: a recorder called twice with the same arguments leaves two
    observations, equal in content, at two consecutive positions after those
    the trace already held. *)
Theorem identical_calls_append_twice
    (c : RecorderCall) (trace : TraceHandle) (w : World) (t : Trace) :
  traces w !! trace = Some t ->
  exists w' t',
    (run_recorder trace c;; run_recorder trace c) w = (Return tt, w') /\
    traces w' !! trace = Some t' /\
    observations t' = observations t ++ [observation_of c; observation_of c] /\
    observations t' !! length (observations t) = Some (observation_of c) /\
    observations t' !! S (length (observations t)) = Some (observation_of c) /\
    length (observations t') = S (S (length (observations t))).
Proof.
  intros Ht.
  destruct (run_recorder_lookup trace c w t Ht) as (w1 & Hrun1 & Hl1 & _).
  destruct (run_recorder_lookup trace c w1 _ Hl1) as (w2 & Hrun2 & Hl2 & _).
  exists w2, (record (observation_of c) (record (observation_of c) t)).
  assert (Hobs : observations (record (observation_of c) (record (observation_of c) t)) =
                 observations t ++ [observation_of c; observation_of c]).
  { rewrite !observations_record, observation_of_is_observation, <- app_assoc.
    reflexivity. }
  split; [|split; [exact Hl2|split; [exact Hobs|]]].
  - rewrite (bind_return _ _ w w1 tt Hrun1). exact Hrun2.
  - rewrite Hobs. split; [|split].
    + rewrite lookup_app_r by lia. rewrite Nat.sub_diag. reflexivity.
    + rewrite lookup_app_r by lia.
      replace (S (length (observations t)) - length (observations t))%nat with 1%nat by lia.
      reflexivity.
    + rewrite length_app. simpl. lia.
Qed.

Lemma identical_calls_append_twice_witness :
  traces demo_world !! 0%nat = Some demo_trace /\
  exists w' t',
    (run_recorder 0%nat (record_span "prepare" None (Some "ready") None);;
     run_recorder 0%nat (record_span "prepare" None (Some "ready") None)) demo_world
      = (Return tt, w') /\
    traces w' !! 0%nat = Some t' /\
    observations t' =
      observations demo_trace ++
      [observation_of (record_span "prepare" None (Some "ready") None);
       observation_of (record_span "prepare" None (Some "ready") None)] /\
    observations t' !! length (observations demo_trace) =
      Some (observation_of (record_span "prepare" None (Some "ready") None)) /\
    observations t' !! S (length (observations demo_trace)) =
      Some (observation_of (record_span "prepare" None (Some "ready") None)) /\
    length (observations t') = S (S (length (observations demo_trace))).
Proof.
  split; [reflexivity|].
  apply (identical_calls_append_twice
           (record_span "prepare" None (Some "ready") None) 0%nat demo_world demo_trace).
  reflexivity.
Defined.

(** ** Client initialisation (C6) *)

Section Initialisation.
Variable env : Env.

Definition public_key_of (project : string) : option string :=
  getenv env (upper project +:+ "_PUBLIC_KEY").

Definition secret_key_of (project : string) : option string :=
  getenv env (upper project +:+ "_SECRET_KEY").

(** The configuration error of a project. *)
Definition configuration_error (project : string) : PyExc :=
  mkExc ValueError
    (missing_keys_message project (upper project +:+ "_PUBLIC_KEY")
       (upper project +:+ "_SECRET_KEY")).

Lemma get_langfuse_client_falsy (project host : string) (w : World) :
  truthy_str (public_key_of project) = false \/
  truthy_str (secret_key_of project) = false ->
  get_langfuse_client env project host w = (Raise (configuration_error project), w).
Proof.
  unfold get_langfuse_client, public_key_of, secret_key_of, configuration_error.
  intros [H|H]; rewrite H; simpl; [reflexivity|].
  rewrite orb_true_r. reflexivity.
Qed.

Lemma get_langfuse_client_truthy (project host : string) (w : World) :
  truthy_str (public_key_of project) = true ->
  truthy_str (secret_key_of project) = true ->
  get_langfuse_client env project host w =
  (Return (mkClient (default "" (public_key_of project))
                    (default "" (secret_key_of project)) host), w).
Proof.
  unfold get_langfuse_client, public_key_of, secret_key_of.
  intros Hp Hs. rewrite Hp, Hs. reflexivity.
Qed.

Lemma py_int_not_configuration_error (x : float) (project : string)
    (w w' : World) (e : PyExc) :
  py_int x w = (Raise e, w') -> e <> configuration_error project.
Proof.
  unfold py_int, configuration_error, missing_keys_message.
  destruct (int_of_float x); [discriminate|].
  destruct (is_nan x); intros H; injection H as <- _; simpl; discriminate.
Qed.

End Initialisation.

(** C6, as the code has it: a key counts as missing when its variable is
    unset or set to the empty string.  With either key missing, building the
    client and constructing the categorizer both raise the configuration
    error and leave the world as it was: no trace in the store, no request
    sent, the clock unread.  With both keys set and not empty the client is
    returned and the constructor does not raise the configuration error. *)
Theorem missing_keys_fail_fast (env : Env) (project host : string) (w : World) :
  ((public_key_of env project = None \/ public_key_of env project = Some "" \/
    secret_key_of env project = None \/ secret_key_of env project = Some "") ->
   get_langfuse_client env project host w =
     (Raise (configuration_error project), w) /\
   __init__ env project w = (Raise (configuration_error project), w)) /\
  (forall pk sk,
     public_key_of env project = Some pk -> pk <> "" ->
     secret_key_of env project = Some sk -> sk <> "" ->
     get_langfuse_client env project host w = (Return (mkClient pk sk host), w) /\
     forall e w', __init__ env project w = (Raise e, w') ->
                  e <> configuration_error project).
Proof.
  split.
  - intros H.
    assert (Hf : truthy_str (public_key_of env project) = false \/
                 truthy_str (secret_key_of env project) = false).
    { destruct H as [H|[H|[H|H]]]; rewrite H; auto. }
    split; [apply get_langfuse_client_falsy; exact Hf|].
    unfold __init__.
    apply bind_raise, get_langfuse_client_falsy; exact Hf.
  - intros pk sk Hp Hpk Hs Hsk.
    assert (Tp : truthy_str (public_key_of env project) = true).
    { rewrite Hp; simpl. apply negb_true_iff, String.eqb_neq; exact Hpk. }
    assert (Ts : truthy_str (secret_key_of env project) = true).
    { rewrite Hs; simpl. apply negb_true_iff, String.eqb_neq; exact Hsk. }
    split.
    + rewrite get_langfuse_client_truthy by assumption. rewrite Hp, Hs. reflexivity.
    + intros e w'. unfold __init__.
      rewrite (bind_return _ _ _ _ _
                 (get_langfuse_client_truthy env project default_langfuse_host w Tp Ts)).
      unfold mbind at 1, M_bind at 1. simpl.
      set (w1 := mkWorld _ _ _ _).
      unfold mbind, M_bind.
      destruct (py_int (time_time env (clock_reads w)) w1) as [[z|e1] w2] eqn:Hint.
      * discriminate.
      * intros H; injection H as <- _.
        eapply py_int_not_configuration_error; exact Hint.
Qed.

(** An environment whose public key for project P is set, but empty. *)
Definition empty_key_env : Env :=
  mkEnv (<["P_PUBLIC_KEY" := ""]> (<["P_SECRET_KEY" := "sk-lf-1"]> ∅))
        (fun _ => 1700000000.5%float) (always (PostReturns (ok_response VNone)))
        demo_repr demo_format_2f (fun _ => "[]").

(** C6 as stated fails where a key is present but empty: both variables
    are set, and initialisation still raises the configuration error. *)
Lemma present_but_empty_key_raises :
  public_key_of empty_key_env "P" = Some "" /\
  secret_key_of empty_key_env "P" = Some "sk-lf-1" /\
  get_langfuse_client empty_key_env "P" default_langfuse_host initial_world =
    (Raise (configuration_error "P"), initial_world) /\
  __init__ empty_key_env "P" initial_world =
    (Raise (configuration_error "P"), initial_world) /\
  exc_class (configuration_error "P") = ValueError.
Proof. repeat split; vm_compute; reflexivity. Qed.

Lemma missing_keys_fail_fast_witness :
  (get_langfuse_client empty_key_env "P" default_langfuse_host initial_world =
     (Raise (configuration_error "P"), initial_world) /\
   __init__ empty_key_env "P" initial_world =
     (Raise (configuration_error "P"), initial_world)) /\
  (get_langfuse_client (demo_env (always (PostReturns (ok_response VNone)))) "P"
     default_langfuse_host initial_world =
     (Return (mkClient "pk-lf-1" "sk-lf-1" default_langfuse_host), initial_world) /\
   forall e w', __init__ (demo_env (always (PostReturns (ok_response VNone)))) "P"
                  initial_world = (Raise e, w') ->
                e <> configuration_error "P").
Proof.
  split.
  - apply (proj1 (missing_keys_fail_fast empty_key_env "P" default_langfuse_host
                    initial_world)).
    right; left; reflexivity.
  - apply (proj2 (missing_keys_fail_fast
                    (demo_env (always (PostReturns (ok_response VNone)))) "P"
                    default_langfuse_host initial_world) "pk-lf-1" "sk-lf-1");
      [reflexivity | discriminate | reflexivity | discriminate].
Defined.

(** ** The success scenario (C2) *)

Lemma scenario_usage_truthy : or_empty_dict (Some scenario_usage) = scenario_usage.
Proof. vm_compute. reflexivity. Qed.

(** C2: with the keys of project P in place, scenario 1 returns a new
    trace that holds exactly two observations, the span before the
    generation, and whose output, assigned once, is the closing value. *)
Theorem scenario_1_trace (env : Env) (w : World) (pk sk : string) :
  public_key_of env "P" = Some pk -> pk <> "" ->
  secret_key_of env "P" = Some sk -> sk <> "" ->
  exists w' t,
    scenario_1 env w = (Return (length (traces w)), w') /\
    traces w' = traces w ++ [t] /\
    trace_name t = "unit" /\
    session_id t = Some "P_123" /\
    observations t =
      [ span "prepare" "" "ready" ∅;
        generation "infer" "m" "x" "y" scenario_usage ∅ ] /\
    length (observations t) = 2%nat /\
    output_updates t = [scenario_output] /\
    output t = Some (VDict {["result" := VStr "y"]}).
Proof.
  intros Hp Hpk Hs Hsk.
  assert (Hclient : get_langfuse_client env "P" default_langfuse_host w =
                    (Return (mkClient pk sk default_langfuse_host), w)).
  { rewrite get_langfuse_client_truthy.
    - rewrite Hp, Hs. reflexivity.
    - rewrite Hp; simpl. apply negb_true_iff, String.eqb_neq; exact Hpk.
    - rewrite Hs; simpl. apply negb_true_iff, String.eqb_neq; exact Hsk. }
  unfold scenario_1.
  rewrite (bind_return _ _ _ _ _ Hclient).
  rewrite (bind_return _ _ _ _ _ (create_trace_fresh _ _ _ _ _ _)).
  rewrite (bind_return _ _ _ _ _ (add_span_last _ _ _ _ _ _ _ _ _)).
  rewrite (bind_return _ _ _ _ _ (add_generation_last _ _ _ _ _ _ _ _ _ _ _)).
  rewrite (bind_return _ _ _ _ _ (trace_call_last _ _ _ _ _ _)).
  rewrite scenario_usage_truthy.
  eexists _, _. split; [reflexivity|]. simpl.
  repeat split; reflexivity.
Qed.

Lemma scenario_1_trace_witness :
  public_key_of (demo_env (always (PostReturns (ok_response VNone)))) "P"
    = Some "pk-lf-1" /\
  secret_key_of (demo_env (always (PostReturns (ok_response VNone)))) "P"
    = Some "sk-lf-1" /\
  exists w' t,
    scenario_1 (demo_env (always (PostReturns (ok_response VNone)))) initial_world
      = (Return (length (traces initial_world)), w') /\
    traces w' = traces initial_world ++ [t] /\
    trace_name t = "unit" /\
    session_id t = Some "P_123" /\
    observations t =
      [ span "prepare" "" "ready" ∅;
        generation "infer" "m" "x" "y" scenario_usage ∅ ] /\
    length (observations t) = 2%nat /\
    output_updates t = [scenario_output] /\
    output t = Some (VDict {["result" := VStr "y"]}).
Proof.
  split; [reflexivity|split; [reflexivity|]].
  apply (scenario_1_trace (demo_env (always (PostReturns (ok_response VNone))))
           initial_world "pk-lf-1" "sk-lf-1");
    [reflexivity | discriminate | reflexivity | discriminate].
Defined.

(** ** The model invocation step (C5, C7) *)

Section ModelCall.
Variable env : Env.

Lemma or_empty_dict_insert (k : string) (v : PyVal) (d : Dict) :
  or_empty_dict (Some (<[k := v]> d)) = <[k := v]> d.
Proof.
  unfold or_empty_dict, truthy_dict.
  rewrite bool_decide_eq_false_2; [reflexivity|].
  apply insert_non_empty.
Qed.

Lemma timeout_message_says_timed_out :
  contains "timed out" (timeout_message env) = true.
Proof. unfold timeout_message. vm_compute. reflexivity. Qed.

(** The request [_call_ollama] sends. *)
Definition generate_request (prompt : string) : Request :=
  mkRequest (OLLAMA_API_URL env +:+ "/api/generate") (request_data env prompt) 30.

(** The generation [_call_ollama] records for a decoded answer. *)
Definition usage_of (response_data : Dict) : Dict :=
  <["prompt_tokens" := default (VInt 0) (response_data !! "prompt_eval_count")]>
  (<["completion_tokens" := default (VInt 0) (response_data !! "eval_count")]> ∅).

Definition generation_of (prompt category : string) (usage : Dict) : TraceCall :=
  generation "ollama_categorization" (OLLAMA_MODEL env) prompt category usage
    (<["temperature" := VFloat 0.3]>
     (<["top_p" := VFloat 0.9]>
     (<["ollama_host" := VStr (OLLAMA_API_URL env)]> ∅))).

Definition no_http_error (r : Response) : bool :=
  (status_code r <? 400) || (600 <=? status_code r).

Lemma raise_for_status_ok (url : string) (r : Response) (w : World) :
  no_http_error r = true -> raise_for_status url r w = (Return tt, w).
Proof.
  unfold no_http_error, raise_for_status. intros H.
  destruct (400 <=? status_code r) eqn:E1, (status_code r <? 500) eqn:E2,
           (500 <=? status_code r) eqn:E3, (status_code r <? 600) eqn:E4;
    simpl; try reflexivity; exfalso; lia.
Qed.

Lemma raise_for_status_cases (url : string) (r : Response) (w : World) :
  raise_for_status url r w = (Return tt, w) \/
  exists e, raise_for_status url r w = (Raise e, w).
Proof.
  unfold raise_for_status.
  destruct ((400 <=? status_code r) && (status_code r <? 500)); [right; eexists; reflexivity|].
  destruct ((500 <=? status_code r) && (status_code r <? 600)); [right; eexists; reflexivity|].
  left; reflexivity.
Qed.

(** A decoded answer that is a dictionary whose ["response"] entry, when
    there is one, is a string: the call returns the stripped text and
    records one generation. *)
Lemma call_ollama_body_returns (transaction : Transaction) (prompt : string)
    (trace : TraceHandle) (w : World) (r : Response) (d : Dict) (s : string) :
  requests_post env (length (http_log w)) (generate_request prompt) = PostReturns r ->
  no_http_error r = true ->
  json r = inr (VDict d) ->
  default (VStr "") (d !! "response") = VStr s ->
  call_ollama_body env transaction prompt trace w =
  (Return (strip s, 0.95%float),
   mkWorld (alter (record (generation_of prompt (strip s) (usage_of d))) trace (traces w))
           (http_log w ++ [generate_request prompt]) (clock_reads w) (stdout w)).
Proof.
  intros Hpost Hok Hjson Htext.
  unfold call_ollama_body.
  unfold mbind at 1, M_bind at 1, post at 1.
  fold (generate_request prompt). rewrite Hpost.
  rewrite (bind_return _ _ _ _ _ (raise_for_status_ok _ r _ Hok)).
  unfold mbind at 1, M_bind at 1, response_json at 1. rewrite Hjson.
  unfold mret at 1, M_ret at 1.
  assert (Hget : forall key dflt w0,
             method_get (VDict d) key dflt w0 = (Return (default dflt (d !! key)), w0)).
  { intros key dflt w0. unfold method_get. destruct (d !! key); reflexivity. }
  rewrite (bind_return _ _ _ _ _ (Hget _ _ _)), Htext.
  unfold mbind at 1, M_bind at 1, method_strip at 1, mret at 1, M_ret at 1.
  rewrite (bind_return _ _ _ _ _ (Hget _ _ _)).
  rewrite (bind_return _ _ _ _ _ (Hget _ _ _)).
  unfold mbind, M_bind, add_generation, trace_call, mret, M_ret.
  rewrite !or_empty_dict_insert. reflexivity.
Qed.

(** Whatever the server does, the [try] block either returns after
    recording one generation, or raises with the store untouched. *)
Lemma call_ollama_body_cases (transaction : Transaction) (prompt : string)
    (trace : TraceHandle) (w : World) :
  (exists category usage,
     call_ollama_body env transaction prompt trace w =
     (Return (category, 0.95%float),
      mkWorld (alter (record (generation_of prompt category usage)) trace (traces w))
              (http_log w ++ [generate_request prompt]) (clock_reads w) (stdout w))) \/
  (exists e,
     call_ollama_body env transaction prompt trace w =
     (Raise e,
      mkWorld (traces w) (http_log w ++ [generate_request prompt])
              (clock_reads w) (stdout w))).
Proof.
  remember (call_ollama_body env transaction prompt trace w) as res eqn:Hres.
  unfold call_ollama_body in Hres.
  unfold mbind at 1, M_bind at 1, post at 1 in Hres.
  fold (generate_request prompt) in Hres.
  destruct (requests_post env (length (http_log w)) (generate_request prompt))
    as [e0|r] eqn:Hpost.
  { right. exists e0. exact Hres. }
  unfold mbind at 1, M_bind at 1 in Hres.
  match type of Hres with
  | context [raise_for_status ?url r ?w1] =>
      destruct (raise_for_status_cases url r w1) as [Hr|[e Hr]]; rewrite Hr in Hres
  end.
  2:{ right. exists e. exact Hres. }
  unfold mbind at 1, M_bind at 1, response_json at 1 in Hres.
  destruct (json r) as [e1|v] eqn:Hjson.
  { right. exists e1. exact Hres. }
  unfold mret at 1, M_ret at 1 in Hres.
  unfold mbind at 1, M_bind at 1 in Hres.
  destruct v as [| | | | |lv|d];
    try (right; eexists; exact Hres).
  assert (Hget : forall key dflt w0,
             method_get (VDict d) key dflt w0 = (Return (default dflt (d !! key)), w0)).
  { intros key dflt w0. unfold method_get. destruct (d !! key); reflexivity. }
  rewrite Hget in Hres.
  unfold mbind at 1, M_bind at 1, method_strip at 1 in Hres.
  destruct (default (VStr "") (d !! "response")) as [| | | |s| |];
    try (right; eexists; exact Hres).
  left. exists (strip s), (usage_of d).
  unfold mret at 1, M_ret at 1 in Hres.
  rewrite (bind_return _ _ _ _ _ (Hget _ _ _)) in Hres.
  rewrite (bind_return _ _ _ _ _ (Hget _ _ _)) in Hres.
  unfold mbind, M_bind, add_generation, trace_call, mret, M_ret in Hres.
  rewrite !or_empty_dict_insert in Hres. exact Hres.
Qed.

Lemma call_ollama_except_cases (e0 : PyExc) (w : World) :
  exists e,
    call_ollama_except env e0 w = (Raise e, w) /\
    ((is_requests_ConnectionError (exc_class e0) = true /\
      e = mkExc ConnectionError (connect_message env e0)) \/
     (is_requests_ConnectionError (exc_class e0) = false /\
      is_requests_Timeout (exc_class e0) = true /\
      e = mkExc TimeoutError (timeout_message env)) \/
     (is_requests_ConnectionError (exc_class e0) = false /\
      is_requests_Timeout (exc_class e0) = false /\
      e = mkExc RuntimeError (other_message e0))).
Proof.
  unfold call_ollama_except.
  destruct (is_requests_ConnectionError (exc_class e0)).
  { eexists; split; [reflexivity|]. left; auto. }
  destruct (is_requests_Timeout (exc_class e0)).
  { eexists; split; [reflexivity|]. right; left; auto. }
  eexists; split; [reflexivity|]. right; right; auto.
Qed.

(** [_call_ollama] either returns after recording one generation, or
    raises one of its three exceptions with the store untouched. *)
Lemma call_ollama_cases (transaction : Transaction) (prompt : string)
    (trace : TraceHandle) (w : World) :
  (exists category usage,
     _call_ollama env transaction prompt trace w =
     (Return (category, 0.95%float),
      mkWorld (alter (record (generation_of prompt category usage)) trace (traces w))
              (http_log w ++ [generate_request prompt]) (clock_reads w) (stdout w))) \/
  (exists e,
     _call_ollama env transaction prompt trace w =
     (Raise e,
      mkWorld (traces w) (http_log w ++ [generate_request prompt])
              (clock_reads w) (stdout w)) /\
     (exc_class e = ConnectionError \/ exc_class e = TimeoutError \/
      exc_class e = RuntimeError)).
Proof.
  unfold _call_ollama, try_except.
  destruct (call_ollama_body_cases transaction prompt trace w)
    as [(category & usage & H)|(e0 & H)]; rewrite H.
  - left. exists category, usage. reflexivity.
  - right.
    match goal with
    | |- context [call_ollama_except env e0 ?w1] =>
        destruct (call_ollama_except_cases e0 w1) as (e & He & Hk)
    end.
    exists e. split; [exact He|].
    destruct Hk as [[_ ->]|[(_ & _ & ->)|(_ & _ & ->)]]; simpl; auto.
Qed.

End ModelCall.

(** A request the library fails raises in the [try] block as it is. *)
Lemma post_failure_raises_in_body (env : Env) (transaction : Transaction)
    (prompt : string) (trace : TraceHandle) (w : World) (e0 : PyExc) :
  requests_post env (length (http_log w)) (generate_request env prompt) = PostRaises e0 ->
  call_ollama_body env transaction prompt trace w =
  (Raise e0, mkWorld (traces w) (http_log w ++ [generate_request env prompt])
                     (clock_reads w) (stdout w)).
Proof.
  intros Hpost. unfold call_ollama_body.
  unfold mbind at 1, M_bind at 1, post at 1.
  fold (generate_request env prompt). rewrite Hpost. reflexivity.
Qed.

(** C5: a failure inside the model invocation step leaves it as one of
    three builtin exceptions: a [requests] connection error as
    [ConnectionError], any other [requests] timeout as [TimeoutError], whose
    message says "timed out", everything else as [RuntimeError].  Nothing
    leaves the step under another class, and the three classes differ, in
    themselves and in their names. *)
Theorem backend_failures_surface_as_three_kinds
    (env : Env) (transaction : Transaction) (prompt : string)
    (trace : TraceHandle) (w : World) :
  (forall e0 w1,
     call_ollama_body env transaction prompt trace w = (Raise e0, w1) ->
     exists e,
       _call_ollama env transaction prompt trace w = (Raise e, w1) /\
       ((is_requests_ConnectionError (exc_class e0) = true /\
         e = mkExc ConnectionError (connect_message env e0)) \/
        (is_requests_ConnectionError (exc_class e0) = false /\
         is_requests_Timeout (exc_class e0) = true /\
         e = mkExc TimeoutError (timeout_message env) /\
         contains "timed out" (exc_str e) = true) \/
        (is_requests_ConnectionError (exc_class e0) = false /\
         is_requests_Timeout (exc_class e0) = false /\
         e = mkExc RuntimeError (other_message e0)))) /\
  (forall e w',
     _call_ollama env transaction prompt trace w = (Raise e, w') ->
     (exc_class e = ConnectionError \/ exc_class e = TimeoutError \/
      exc_class e = RuntimeError) /\
     (exc_class e = TimeoutError -> contains "timed out" (exc_str e) = true)) /\
  (ConnectionError <> TimeoutError /\ ConnectionError <> RuntimeError /\
   TimeoutError <> RuntimeError /\
   class_name ConnectionError <> class_name TimeoutError /\
   class_name ConnectionError <> class_name RuntimeError /\
   class_name TimeoutError <> class_name RuntimeError).
Proof.
  split; [|split].
  - intros e0 w1 Hbody.
    unfold _call_ollama, try_except. rewrite Hbody.
    destruct (call_ollama_except_cases env e0 w1) as (e & He & Hk).
    exists e. split; [exact He|].
    destruct Hk as [Hk|[(Hc & Ht & ->)|Hk]]; [auto| |auto].
    right; left.
    split; [exact Hc|split; [exact Ht|split; [reflexivity|]]].
    apply (timeout_message_says_timed_out env).
  - intros e w'. unfold _call_ollama, try_except.
    destruct (call_ollama_body env transaction prompt trace w) as [[r|e0] w1];
      [discriminate|].
    destruct (call_ollama_except_cases env e0 w1) as (e1 & He & Hk).
    rewrite He. intros H; injection H as <- <-.
    destruct Hk as [[_ ->]|[(_ & _ & ->)|(_ & _ & ->)]]; simpl;
      (split; [auto|]); try discriminate.
    intros _. apply (timeout_message_says_timed_out env).
  - repeat split; discriminate.
Qed.

(** A server that lets every request run into the read timeout. *)
Definition read_timeout : PyExc :=
  mkExc ReadTimeout
    "HTTPConnectionPool(host='localhost', port=11434): Read timed out. (read timeout=30)".

Definition slow_env : Env := demo_env (always (PostRaises read_timeout)).

Definition demo_world_after_request (prompt : string) : World :=
  mkWorld [demo_trace] [generate_request slow_env prompt] 0%nat [].

Lemma backend_failures_surface_as_three_kinds_witness :
  call_ollama_body slow_env starbucks "prompt" 0%nat demo_world =
    (Raise read_timeout, demo_world_after_request "prompt") /\
  _call_ollama slow_env starbucks "prompt" 0%nat demo_world =
    (Raise (mkExc TimeoutError (timeout_message slow_env)),
     demo_world_after_request "prompt") /\
  contains "timed out" (timeout_message slow_env) = true.
Proof.
  assert (Hbody : call_ollama_body slow_env starbucks "prompt" 0%nat demo_world =
                  (Raise read_timeout, demo_world_after_request "prompt"))
    by (apply (post_failure_raises_in_body slow_env); reflexivity).
  split; [exact Hbody|].
  destruct (proj1 (backend_failures_surface_as_three_kinds
                     slow_env starbucks "prompt" 0%nat demo_world) _ _ Hbody)
    as (e & Hrun & [(Hc & _)|[(_ & _ & -> & Hsays)|(_ & Ht & _)]]);
    [discriminate Hc| |discriminate Ht].
  split; [exact Hrun|exact Hsays].
Defined.

(** ** Usage counters (C7) *)

Lemma call_ollama_returns (env : Env) (transaction : Transaction) (prompt : string)
    (trace : TraceHandle) (w : World) (r : Response) (d : Dict) (s : string) :
  requests_post env (length (http_log w)) (generate_request env prompt) = PostReturns r ->
  no_http_error r = true ->
  json r = inr (VDict d) ->
  default (VStr "") (d !! "response") = VStr s ->
  _call_ollama env transaction prompt trace w =
  (Return (strip s, 0.95%float),
   mkWorld (alter (record (generation_of env prompt (strip s) (usage_of d))) trace
              (traces w))
           (http_log w ++ [generate_request env prompt]) (clock_reads w) (stdout w)).
Proof.
  intros Hpost Hok Hjson Htext.
  unfold _call_ollama, try_except.
  rewrite (call_ollama_body_returns env transaction prompt trace w r d s
             Hpost Hok Hjson Htext).
  reflexivity.
Qed.

(** The usage mapping of an observation, for a generation. *)
Definition usage_field (c : TraceCall) (field : string) : option PyVal :=
  match c with
  | generation _ _ _ _ usage _ => usage !! field
  | _ => None
  end.

(** C7, as the code has it: the generation recorded by the model
    invocation step carries both usage fields, each the counter of the
    server's answer, or zero where the answer omits it; a generation recorded
    with no usage at all carries an empty usage mapping, with neither field. *)
Theorem omitted_counters_recorded_as_zero
    (env : Env) (transaction : Transaction) (prompt : string)
    (trace : TraceHandle) (w : World) (t : Trace)
    (r : Response) (d : Dict) (s : string) :
  traces w !! trace = Some t ->
  requests_post env (length (http_log w)) (generate_request env prompt) = PostReturns r ->
  no_http_error r = true ->
  json r = inr (VDict d) ->
  default (VStr "") (d !! "response") = VStr s ->
  (exists w' g,
     _call_ollama env transaction prompt trace w = (Return (strip s, 0.95%float), w') /\
     traces w' !! trace = Some (record g t) /\
     observations (record g t) = observations t ++ [g] /\
     (d !! "prompt_eval_count" = None -> usage_field g "prompt_tokens" = Some (VInt 0)) /\
     (d !! "eval_count" = None -> usage_field g "completion_tokens" = Some (VInt 0)) /\
     (forall v, d !! "prompt_eval_count" = Some v -> usage_field g "prompt_tokens" = Some v) /\
     (forall v, d !! "eval_count" = Some v -> usage_field g "completion_tokens" = Some v)) /\
  (forall name model input_ output metadata,
   exists w' g,
     add_generation trace name model input_ output None metadata w = (Return tt, w') /\
     traces w' !! trace = Some (record g t) /\
     g = generation name model input_ output ∅ (or_empty_dict metadata) /\
     usage_field g "prompt_tokens" = None /\
     usage_field g "completion_tokens" = None).
Proof.
  intros Ht Hpost Hok Hjson Htext. split.
  - eexists _, (generation_of env prompt (strip s) (usage_of d)).
    split; [apply (call_ollama_returns env transaction prompt trace w r d s); assumption|].
    simpl. split; [rewrite list_lookup_alter_eq, Ht; reflexivity|].
    split; [apply observations_record|].
    unfold usage_of.
    repeat split.
    + intros ->. apply lookup_insert_eq.
    + intros ->. rewrite lookup_insert_ne by discriminate. apply lookup_insert_eq.
    + intros v ->. apply lookup_insert_eq.
    + intros v ->. rewrite lookup_insert_ne by discriminate. apply lookup_insert_eq.
  - intros name model input_ output metadata.
    eexists _, _. split; [reflexivity|]. simpl.
    split; [rewrite list_lookup_alter_eq, Ht; reflexivity|].
    repeat split; reflexivity.
Qed.

(** An answer that carries the text and no counters. *)
Definition bare_answer : Dict := {["response" := VStr " Food & Dining "]}.

Definition bare_env : Env := demo_env (always (PostReturns (ok_response (VDict bare_answer)))).

Lemma omitted_counters_recorded_as_zero_witness :
  exists w' g,
    _call_ollama bare_env starbucks "prompt" 0%nat demo_world =
      (Return (strip " Food & Dining ", 0.95%float), w') /\
    traces w' !! 0%nat = Some (record g demo_trace) /\
    usage_field g "prompt_tokens" = Some (VInt 0) /\
    usage_field g "completion_tokens" = Some (VInt 0).
Proof.
  destruct (proj1 (omitted_counters_recorded_as_zero bare_env starbucks "prompt" 0%nat
                     demo_world demo_trace (ok_response (VDict bare_answer)) bare_answer
                     " Food & Dining " eq_refl eq_refl eq_refl eq_refl eq_refl))
    as (w' & g & Hrun & Hl & _ & Hp & Hc & _).
  exists w', g.
  split; [exact Hrun|split; [exact Hl|split]].
  - apply Hp. reflexivity.
  - apply Hc. reflexivity.
Defined.

(** C7 as stated fails for the recorder called without usage: the
    generation is recorded with an empty usage mapping, so that neither field
    is zero; both are absent. *)
Lemma no_usage_records_no_counters :
  exists w' g,
    add_generation 0%nat "infer" "m" "x" "y" None None demo_world = (Return tt, w') /\
    traces w' !! 0%nat = Some (record g demo_trace) /\
    observations (record g demo_trace) = [g] /\
    g = generation "infer" "m" "x" "y" ∅ ∅ /\
    usage_field g "prompt_tokens" = None /\
    usage_field g "completion_tokens" = None /\
    usage_field g "prompt_tokens" <> Some (VInt 0) /\
    usage_field g "completion_tokens" <> Some (VInt 0).
Proof.
  eexists _, _. split; [reflexivity|]. simpl.
  repeat split; try reflexivity; discriminate.
Qed.

(** ** One unit of work *)

Section UnitOfWork.
Variable env : Env.

Lemma or_empty_str_Some (s : string) : or_empty_str (Some s) = s.
Proof.
  unfold or_empty_str, truthy_str.
  destruct (String.eqb_spec s ""); simpl; congruence.
Qed.

Lemma or_empty_dict_singleton (k : string) (v : PyVal) :
  or_empty_dict (Some {[k := v]}) = {[k := v]}.
Proof. apply (or_empty_dict_insert k v ∅). Qed.

(** The observations of the pipeline. *)
Definition prepare_span (transaction : Transaction) : TraceCall :=
  span "prepare_transaction_data"
    ("ID: " +:+ id transaction +:+ ", Desc: " +:+ description transaction +:+
     ", Amount: " +:+ float_repr env (amount transaction))
    "Transaction data prepared"
    {["step" := VInt 1]}.

Definition prompt_span (transaction : Transaction) : TraceCall :=
  span "create_prompt" "" (_create_prompt env transaction)
    (<["step" := VInt 2]>
     (<["prompt_length" :=
          VInt (Z.of_nat (String.length (_create_prompt env transaction)))]> ∅)).

Definition validate_span (category : string) : TraceCall :=
  span "validate_result"
    ("Category: " +:+ category +:+ ", Confidence: " +:+ float_repr env 0.95%float)
    "Validation passed"
    (<["step" := VInt 4]> (<["valid" := VBool true]> ∅)).

Definition error_span (e : PyExc) : TraceCall :=
  span "error" (class_name (exc_class e)) (exc_str e) {["error" := VBool true]}.

(** The trace a unit of work opens, holding the given calls. *)
Definition unit_trace (self : TransactionCategorizer) (transaction : Transaction)
    (cs : list TraceCall) : Trace :=
  mkTrace "categorize_transaction" (Some "system")
          (Some (categorizer_session_id self)) (trace_metadata_of transaction) cs.

(** The time the model call took, read off the clock around it. *)
Definition elapsed (k : nat) : float :=
  (time_time env (S k) - time_time env k)%float.

Definition unit_request (transaction : Transaction) : Request :=
  generate_request env (_create_prompt env transaction).

Lemma create_unit_trace (self : TransactionCategorizer) (transaction : Transaction)
    (l : list Trace) (h : list Request) (k : nat) (o : list string) :
  create_trace (langfuse self) "categorize_transaction" (Some "system")
    (Some (categorizer_session_id self)) (Some (trace_metadata_of transaction))
    (mkWorld l h k o) =
  (Return (length l), mkWorld (l ++ [unit_trace self transaction []]) h k o).
Proof.
  rewrite create_trace_fresh. unfold unit_trace, trace_metadata_of.
  rewrite or_empty_dict_insert. reflexivity.
Qed.

(** The world in which the [try] block of a unit starts: the unit's trace
    has joined the store and holds no call yet. *)
Definition opened (self : TransactionCategorizer) (transaction : Transaction)
    (w : World) : World :=
  mkWorld (traces w ++ [unit_trace self transaction []])
          (http_log w) (clock_reads w) (stdout w).

(** The world in which the model call of a unit starts: the trace opened
    last holds the two spans, the clock was read once. *)
Definition before_call (self : TransactionCategorizer) (transaction : Transaction)
    (l : list Trace) (h : list Request) (k : nat) (o : list string) : World :=
  mkWorld (l ++ [unit_trace self transaction
                   [ prepare_span transaction; prompt_span transaction ]])
          h (S k) o.

(** The [try] block on the trace just opened, as far as the model call. *)
Lemma categorize_steps_unfold (self : TransactionCategorizer)
    (transaction : Transaction)
    (l : list Trace) (h : list Request) (k : nat) (o : list string) :
  categorize_steps env transaction (length l)
    (mkWorld (l ++ [unit_trace self transaction []]) h k o) =
  (_call_ollama env transaction (_create_prompt env transaction) (length l) ≫=
   (λ '(category, confidence),
      end_time ← read_clock env;
      let elapsed_time := (end_time - time_time env k)%float in
      add_span (length l) "validate_result"
        (Some ("Category: " +:+ category +:+ ", Confidence: " +:+
               float_repr env confidence))
        (Some "Validation passed")
        (Some (<["step" := VInt 4]> (<["valid" := VBool true]> ∅)));;
      let result := result_of transaction category confidence elapsed_time in
      trace_call (length l) (update (VDict result));;
      mret result))
    (before_call self transaction l h k o).
Proof.
  unfold categorize_steps.
  rewrite (bind_return _ _ _ _ _ (add_span_last _ _ _ _ _ _ _ _ _)).
  rewrite (bind_return _ _ _ _ _ (add_span_last _ _ _ _ _ _ _ _ _)).
  rewrite !or_empty_str_Some, !or_empty_dict_insert.
  reflexivity.
Qed.

Lemma categorize_steps_raise (self : TransactionCategorizer)
    (transaction : Transaction)
    (l : list Trace) (h : list Request) (k : nat) (o : list string)
    (e : PyExc) (w3 : World) :
  _call_ollama env transaction (_create_prompt env transaction) (length l)
    (before_call self transaction l h k o) = (Raise e, w3) ->
  categorize_steps env transaction (length l)
    (mkWorld (l ++ [unit_trace self transaction []]) h k o) = (Raise e, w3).
Proof.
  intros Hcall. rewrite categorize_steps_unfold.
  apply bind_raise. exact Hcall.
Qed.

Lemma categorize_steps_return (self : TransactionCategorizer)
    (transaction : Transaction)
    (l : list Trace) (h h' : list Request) (k : nat) (o : list string)
    (category : string) (g : TraceCall) :
  _call_ollama env transaction (_create_prompt env transaction) (length l)
    (before_call self transaction l h k o) =
  (Return (category, 0.95%float),
   mkWorld (alter (record g) (length l) (traces (before_call self transaction l h k o)))
           h' (S k) o) ->
  categorize_steps env transaction (length l)
    (mkWorld (l ++ [unit_trace self transaction []]) h k o) =
  (Return (result_of transaction category 0.95%float (elapsed k)),
   mkWorld (l ++ [unit_trace self transaction
                    [ prepare_span transaction;
                      prompt_span transaction;
                      g;
                      validate_span category;
                      update (VDict (result_of transaction category 0.95%float
                                       (elapsed k))) ]])
           h' (S (S k)) o).
Proof.
  intros Hcall. rewrite categorize_steps_unfold.
  rewrite (bind_return _ _ _ _ _ Hcall).
  unfold before_call; cbn [traces]. rewrite alter_last.
  unfold mbind at 1, M_bind at 1, read_clock at 1.
  cbn [traces http_log clock_reads stdout].
  rewrite (bind_return _ _ _ _ _ (add_span_last _ _ _ _ _ _ _ _ _)).
  rewrite (bind_return _ _ _ _ _ (trace_call_last _ _ _ _ _ _)).
  rewrite !or_empty_str_Some, !or_empty_dict_insert.
  reflexivity.
Qed.

(** The [except] clause, after any [try] block: the exception the block
    raised is recorded on the trace and raised again. *)
Lemma except_clause_reraises (body : M Dict) (trace : TraceHandle)
    (w w' : World) (e : PyExc) :
  try_except body (categorize_except trace) w = (Raise e, w') ->
  exists w1,
    body w = (Raise e, w1) /\
    w' = mkWorld (alter (record (error_span e)) trace (traces w1))
                 (http_log w1) (clock_reads w1) (stdout w1).
Proof.
  unfold try_except. destruct (body w) as [[a|e1] w1]; [discriminate|].
  unfold categorize_except, mbind, M_bind, add_span, trace_call, raise.
  rewrite !or_empty_str_Some, or_empty_dict_singleton.
  intros H; injection H as <- <-. exists w1. split; reflexivity.
Qed.

Lemma except_clause_after_raise (body : M Dict) (trace : TraceHandle)
    (w w1 : World) (e : PyExc) :
  body w = (Raise e, w1) ->
  try_except body (categorize_except trace) w =
  (Raise e, mkWorld (alter (record (error_span e)) trace (traces w1))
                    (http_log w1) (clock_reads w1) (stdout w1)).
Proof.
  intros Hbody. unfold try_except. rewrite Hbody.
  unfold categorize_except, mbind, M_bind, add_span, trace_call, raise.
  rewrite !or_empty_str_Some, or_empty_dict_singleton. reflexivity.
Qed.

(** The trace a failed unit leaves, and the one a successful unit leaves. *)
Definition failed_calls (transaction : Transaction) (e : PyExc) : list TraceCall :=
  [ prepare_span transaction; prompt_span transaction; error_span e ].

Definition successful_calls (transaction : Transaction) (category : string)
    (usage : Dict) (k : nat) : list TraceCall :=
  [ prepare_span transaction;
    prompt_span transaction;
    generation_of env (_create_prompt env transaction) category usage;
    validate_span category;
    update (VDict (result_of transaction category 0.95%float (elapsed k))) ].

(** Every run of [categorize_transaction] is of one of two shapes. *)
Lemma categorize_transaction_cases (self : TransactionCategorizer)
    (transaction : Transaction) (w : World) :
  (exists category usage,
     categorize_transaction env self transaction w =
     (Return (result_of transaction category 0.95%float (elapsed (clock_reads w))),
      mkWorld (traces w ++ [unit_trace self transaction
                 (successful_calls transaction category usage (clock_reads w))])
              (http_log w ++ [unit_request transaction])
              (S (S (clock_reads w))) (stdout w)) /\
     exists w1,
       categorize_steps env transaction (length (traces w)) (opened self transaction w) =
       (Return (result_of transaction category 0.95%float (elapsed (clock_reads w))),
        w1)) \/
  (exists e,
     categorize_transaction env self transaction w =
     (Raise e,
      mkWorld (traces w ++ [unit_trace self transaction (failed_calls transaction e)])
              (http_log w ++ [unit_request transaction])
              (S (clock_reads w)) (stdout w)) /\
     categorize_steps env transaction (length (traces w)) (opened self transaction w) =
     (Raise e,
      mkWorld (traces w ++ [unit_trace self transaction
                 [ prepare_span transaction; prompt_span transaction ]])
              (http_log w ++ [unit_request transaction])
              (S (clock_reads w)) (stdout w)) /\
     (exc_class e = ConnectionError \/ exc_class e = TimeoutError \/
      exc_class e = RuntimeError)).
Proof.
  destruct w as [l h k o]. unfold opened. cbn [traces http_log clock_reads stdout].
  unfold categorize_transaction.
  rewrite !(bind_return _ _ _ _ _ (create_unit_trace self transaction l h k o)).
  destruct (call_ollama_cases env transaction (_create_prompt env transaction)
              (length l) (before_call self transaction l h k o))
    as [(category & usage & Hcall)|(e & Hcall & Hkind)].
  - left. exists category, usage.
    unfold try_except.
    rewrite (categorize_steps_return self transaction l h _ k o category _ Hcall).
    split; [reflexivity|]. eexists. reflexivity.
  - right. exists e.
    pose proof (categorize_steps_raise self transaction l h k o e _ Hcall) as Hsteps.
    rewrite (except_clause_after_raise _ _ _ _ _ Hsteps).
    cbn [traces http_log clock_reads stdout before_call].
    rewrite alter_last.
    split; [reflexivity|split; [exact Hsteps|exact Hkind]].
Qed.

(** A good answer from the server makes the unit return. *)
Lemma categorize_transaction_returns (self : TransactionCategorizer)
    (transaction : Transaction) (w : World) (r : Response) (d : Dict) (s : string) :
  requests_post env (length (http_log w)) (unit_request transaction) = PostReturns r ->
  no_http_error r = true ->
  json r = inr (VDict d) ->
  default (VStr "") (d !! "response") = VStr s ->
  categorize_transaction env self transaction w =
  (Return (result_of transaction (strip s) 0.95%float (elapsed (clock_reads w))),
   mkWorld (traces w ++ [unit_trace self transaction
              (successful_calls transaction (strip s) (usage_of d) (clock_reads w))])
           (http_log w ++ [unit_request transaction])
           (S (S (clock_reads w))) (stdout w)).
Proof.
  destruct w as [l h k o]. cbn [traces http_log clock_reads stdout].
  intros Hpost Hok Hjson Htext.
  unfold categorize_transaction.
  rewrite (bind_return _ _ _ _ _ (create_unit_trace self transaction l h k o)).
  unfold try_except.
  rewrite (categorize_steps_return self transaction l h
             (h ++ [unit_request transaction]) k o (strip s)
             (generation_of env (_create_prompt env transaction) (strip s) (usage_of d))).
  - reflexivity.
  - exact (call_ollama_returns env transaction (_create_prompt env transaction)
             (length l) (before_call self transaction l h k o) r d s
             Hpost Hok Hjson Htext).
Qed.

End UnitOfWork.

(** ** Failure of a unit (C1) *)

Definition is_error_span (c : TraceCall) : bool :=
  match c with
  | span name _ _ _ => String.eqb name "error"
  | _ => false
  end.

(** C1: when the pipeline of a unit of work raises, at whatever step, the
    unit raises that same exception; the unit's trace then holds what the
    pipeline had recorded before the failure, followed by one error span
    whose input is the name of the exception's class and whose output is its
    message; that span is the last call on the trace, the only error span on
    it, and no output was assigned. *)
Theorem failure_records_one_error_span_and_reraises
    (env : Env) (self : TransactionCategorizer) (transaction : Transaction)
    (w w1 : World) (e : PyExc) :
  categorize_steps env transaction (length (traces w)) (opened self transaction w)
    = (Raise e, w1) ->
  exists before,
    traces w1 = traces w ++ [unit_trace self transaction before] /\
    categorize_transaction env self transaction w =
      (Raise e,
       mkWorld (traces w ++ [unit_trace self transaction (before ++ [error_span e])])
               (http_log w1) (clock_reads w1) (stdout w1)) /\
    error_span e =
      span "error" (class_name (exc_class e)) (exc_str e) {["error" := VBool true]} /\
    filter (fun c => is_error_span c = true) (before ++ [error_span e]) = [error_span e] /\
    last (before ++ [error_span e]) = Some (error_span e) /\
    output_updates (unit_trace self transaction (before ++ [error_span e])) = [].
Proof.
  intros Hsteps.
  destruct (categorize_transaction_cases env self transaction w)
    as [(category & usage & _ & (w2 & H))|(e1 & Hrun & H & _)];
    rewrite H in Hsteps; [discriminate|].
  injection Hsteps as <- <-.
  exists [prepare_span env transaction; prompt_span env transaction].
  split; [reflexivity|]. split; [exact Hrun|].
  repeat split; reflexivity.
Qed.

Definition timeout_error : PyExc := mkExc TimeoutError (timeout_message slow_env).

Definition slow_world : World :=
  mkWorld [unit_trace demo_self starbucks (failed_calls slow_env starbucks timeout_error)]
          [unit_request slow_env starbucks] 1%nat [].

Definition slow_world_before_handler : World :=
  mkWorld [unit_trace demo_self starbucks
             [prepare_span slow_env starbucks; prompt_span slow_env starbucks]]
          [unit_request slow_env starbucks] 1%nat [].

Lemma failure_records_one_error_span_and_reraises_witness :
  categorize_steps slow_env starbucks 0%nat (opened demo_self starbucks initial_world)
    = (Raise timeout_error, slow_world_before_handler) /\
  categorize_transaction slow_env demo_self starbucks initial_world
    = (Raise timeout_error, slow_world) /\
  error_span timeout_error =
    span "error" "TimeoutError"
      "Request to Ollama timed out. The model llama3.1:8b might be slow."
      {["error" := VBool true]} /\
  filter (fun c => is_error_span c = true) (failed_calls slow_env starbucks timeout_error)
    = [error_span timeout_error].
Proof.
  assert (H : categorize_steps slow_env starbucks 0%nat
                (opened demo_self starbucks initial_world)
              = (Raise timeout_error, slow_world_before_handler))
    by (vm_compute; reflexivity).
  split; [exact H|].
  destruct (failure_records_one_error_span_and_reraises
              slow_env demo_self starbucks initial_world slow_world_before_handler
              timeout_error H)
    as (before & Hbefore & Hrun & _ & _ & _ & _).
  injection Hbefore as <-.
  split; [exact Hrun|]. split; reflexivity.
Defined.

(** ** At most one output (C3) *)

(** C3: a unit of work adds one trace to the store; when the unit
    returns, its result was assigned to the trace's output exactly once; when
    it raises, no output was assigned.  In both cases at most one. *)
Theorem output_assigned_at_most_once
    (env : Env) (self : TransactionCategorizer) (transaction : Transaction)
    (w : World) :
  exists o w' t,
    categorize_transaction env self transaction w = (o, w') /\
    traces w' = traces w ++ [t] /\
    match o with
    | Return result =>
        output_updates t = [VDict result] /\ output t = Some (VDict result)
    | Raise _ =>
        output_updates t = [] /\ output t = None
    end /\
    (length (output_updates t) <= 1)%nat.
Proof.
  destruct (categorize_transaction_cases env self transaction w)
    as [(category & usage & H & _)|(e & H & _ & _)];
    rewrite H; eexists _, _, _; (split; [reflexivity|]);
    (split; [reflexivity|]); simpl; auto.
Qed.

(** ** The validation step (C8) *)

(** A call that marks a failure: an error span, or a span whose metadata
    says [error] or not [valid], or a validation span that does not say
    "Validation passed". *)
Definition flags_failure (c : TraceCall) : bool :=
  match c with
  | span name _ output metadata =>
      String.eqb name "error" ||
      match metadata !! "error" with Some (VBool true) => true | _ => false end ||
      match metadata !! "valid" with Some (VBool false) => true | _ => false end ||
      (String.eqb name "validate_result" && negb (String.eqb output "Validation passed"))
  | _ => false
  end.

(** C8, as the code has it: whenever the model call returns, whatever the
    category and also when it is empty, the validation step records a span
    that carries the category and the confidence and says "Validation
    passed" with [valid] true; nothing on the trace marks a failure, and the
    unit returns its result, assigned once to the trace's output. *)
Theorem validation_span_always_passes
    (env : Env) (self : TransactionCategorizer) (transaction : Transaction)
    (w : World) (r : Response) (d : Dict) (s : string) :
  requests_post env (length (http_log w)) (unit_request env transaction) = PostReturns r ->
  no_http_error r = true ->
  json r = inr (VDict d) ->
  default (VStr "") (d !! "response") = VStr s ->
  exists result w' t,
    categorize_transaction env self transaction w = (Return result, w') /\
    result !! "category" = Some (VStr (strip s)) /\
    traces w' = traces w ++ [t] /\
    calls t !! 3%nat =
      Some (span "validate_result"
              ("Category: " +:+ strip s +:+ ", Confidence: " +:+ float_repr env 0.95%float)
              "Validation passed"
              (<["step" := VInt 4]> (<["valid" := VBool true]> ∅))) /\
    length (observations t) = 4%nat /\
    filter (fun c => flags_failure c = true) (calls t) = [] /\
    output_updates t = [VDict result].
Proof.
  intros Hpost Hok Hjson Htext.
  eexists _, _, _.
  split; [apply (categorize_transaction_returns env self transaction w r d s);
          assumption|].
  repeat split; reflexivity.
Qed.

(** A server whose answer is an empty category. *)
Definition blank_answer : Dict := {["response" := VStr ""]}.

Definition blank_env : Env :=
  demo_env (always (PostReturns (ok_response (VDict blank_answer)))).

Lemma validation_span_always_passes_witness :
  exists result w' t,
    categorize_transaction blank_env demo_self starbucks initial_world
      = (Return result, w') /\
    result !! "category" = Some (VStr "") /\
    traces w' = [t] /\
    calls t !! 3%nat =
      Some (span "validate_result" "Category: , Confidence: 0.95" "Validation passed"
              (<["step" := VInt 4]> (<["valid" := VBool true]> ∅))) /\
    filter (fun c => flags_failure c = true) (calls t) = [] /\
    output_updates t = [VDict result].
Proof.
  destruct (validation_span_always_passes blank_env demo_self starbucks initial_world
              (ok_response (VDict blank_answer)) blank_answer ""
              eq_refl eq_refl eq_refl eq_refl)
    as (result & w' & t & Hrun & Hcat & Ht & Hspan & _ & Hflag & Hout).
  exists result, w', t.
  split; [exact Hrun|]. split; [exact Hcat|]. split; [exact Ht|].
  split; [exact Hspan|]. split; [exact Hflag|exact Hout].
Defined.

(** C8 as stated fails: for an empty category the unit does return, but
    what its trace records is a passed validation; no call on the trace
    marks a failure. *)
Lemma empty_category_recorded_as_passed :
  exists result w' t,
    categorize_transaction blank_env demo_self starbucks initial_world
      = (Return result, w') /\
    result !! "category" = Some (VStr "") /\
    traces w' = [t] /\
    calls t =
      [ prepare_span blank_env starbucks;
        prompt_span blank_env starbucks;
        generation_of blank_env (_create_prompt blank_env starbucks) ""
          (usage_of blank_answer);
        span "validate_result" "Category: , Confidence: 0.95" "Validation passed"
          (<["step" := VInt 4]> (<["valid" := VBool true]> ∅));
        update (VDict result) ] /\
    ~ Exists (fun c => flags_failure c = true) (calls t).
Proof.
  eexists _, _, _.
  split; [vm_compute; reflexivity|].
  split; [reflexivity|]. split; [reflexivity|]. split; [reflexivity|].
  rewrite <- Forall_Exists_neg.
  repeat constructor; discriminate.
Qed.

(** ** Batch processing (C9) *)

Section Batch.
Variable env : Env.
Variable self : TransactionCategorizer.

Definition printed (line : string) (w : World) : World :=
  mkWorld (traces w) (http_log w) (clock_reads w) (stdout w ++ [line]).

(** What one turn of the loop contributes: the unit's result, or its error
    result, and the world after the line was printed. *)
Definition unit_outcome (transaction : Transaction) (w : World) : Dict * World :=
  match categorize_transaction env self transaction w with
  | (Return result, w1) =>
      (result,
       printed ("✓ Categorized: " +:+ ljust 40 (description transaction) +:+ " → " +:+
                py_str env (default VNone (result !! "category"))) w1)
  | (Raise e, w1) =>
      (error_result transaction e,
       printed ("✗ Failed: " +:+ ljust 40 (description transaction) +:+ " → " +:+
                exc_str e) w1)
  end.

Fixpoint batch_results (transactions : list Transaction) (w : World) : list Dict :=
  match transactions with
  | [] => []
  | transaction :: rest =>
      (unit_outcome transaction w).1 :: batch_results rest (unit_outcome transaction w).2
  end.

Fixpoint batch_world (transactions : list Transaction) (w : World) : World :=
  match transactions with
  | [] => w
  | transaction :: rest => batch_world rest (unit_outcome transaction w).2
  end.

(** A result speaks of its transaction. *)
Definition describes (transaction : Transaction) (r : Dict) : Prop :=
  r !! "transaction_id" = Some (VStr (id transaction)) /\
  r !! "description" = Some (VStr (description transaction)) /\
  r !! "amount" = Some (VFloat (amount transaction)).

Lemma result_of_describes (transaction : Transaction) (category : string)
    (confidence elapsed_time : float) :
  describes transaction (result_of transaction category confidence elapsed_time) /\
  result_of transaction category confidence elapsed_time !! "category"
    = Some (VStr category) /\
  result_of transaction category confidence elapsed_time !! "error" = None.
Proof. unfold describes, result_of. repeat split; reflexivity. Qed.

Lemma error_result_describes (transaction : Transaction) (e : PyExc) :
  describes transaction (error_result transaction e) /\
  error_result transaction e !! "error" = Some (VStr (exc_str e)) /\
  error_result transaction e !! "category" = None.
Proof. unfold describes, error_result. repeat split; reflexivity. Qed.

Lemma batch_step_run (results : list Dict) (transaction : Transaction) (w : World) :
  batch_step env self results transaction w =
  (Return (results ++ [(unit_outcome transaction w).1]), (unit_outcome transaction w).2).
Proof.
  unfold batch_step, unit_outcome.
  destruct (categorize_transaction_cases env self transaction w)
    as [(category & usage & H & _)|(e & H & _ & _)]; rewrite H.
  - unfold try_except, mbind, M_bind, subscript.
    destruct (result_of_describes transaction category 0.95%float
                (elapsed env (clock_reads w))) as (_ & -> & _).
    reflexivity.
  - reflexivity.
Qed.

Lemma batch_loop_run (transactions : list Transaction) (results : list Dict) (w : World) :
  batch_loop env self results transactions w =
  (Return (results ++ batch_results transactions w), batch_world transactions w).
Proof.
  revert results w. induction transactions as [|transaction rest IH]; intros results w.
  - simpl. rewrite app_nil_r. reflexivity.
  - simpl. rewrite (bind_return _ _ _ _ _ (batch_step_run results transaction w)).
    rewrite IH, <- app_assoc. reflexivity.
Qed.

Lemma unit_outcome_describes (transaction : Transaction) (w : World) :
  describes transaction (unit_outcome transaction w).1.
Proof.
  unfold unit_outcome.
  destruct (categorize_transaction env self transaction w) as [[result|e] w1] eqn:H.
  - destruct (categorize_transaction_cases env self transaction w)
      as [(category & usage & H' & _)|(e & H' & _ & _)]; rewrite H' in H;
      [|discriminate].
    injection H as <- _. apply result_of_describes.
  - apply error_result_describes.
Qed.

Lemma batch_results_describe (transactions : list Transaction) (w : World) :
  Forall2 describes transactions (batch_results transactions w).
Proof.
  revert w. induction transactions as [|transaction rest IH]; intros w; simpl.
  - constructor.
  - constructor; [apply unit_outcome_describes|apply IH].
Qed.

End Batch.

(** C9: [categorize_batch] always returns, with one result per transaction,
    in input order, each naming its transaction's id, description and
    amount.  The first result is the first unit's own result when that unit
    returns, and when it raises it is the error result, which adds the
    exception's message under ["error"]; either way the remaining results
    are those of the batch of the remaining transactions, run in the world
    the first unit left. *)
Theorem batch_returns_one_result_per_transaction
    (env : Env) (self : TransactionCategorizer) (transactions : list Transaction)
    (w : World) :
  (exists results w',
     categorize_batch env self transactions w = (Return results, w') /\
     length results = length transactions /\
     Forall2 describes transactions results) /\
  (forall transaction rest,
     transactions = transaction :: rest ->
     exists r w1 results' w',
       categorize_batch env self transactions w = (Return (r :: results'), w') /\
       categorize_batch env self rest w1 = (Return results', w') /\
       match categorize_transaction env self transaction w with
       | (Return result, _) => r = result
       | (Raise e, _) =>
           r = error_result transaction e /\
           r !! "transaction_id" = Some (VStr (id transaction)) /\
           r !! "description" = Some (VStr (description transaction)) /\
           r !! "amount" = Some (VFloat (amount transaction)) /\
           r !! "error" = Some (VStr (exc_str e))
       end).
Proof.
  unfold categorize_batch. split.
  - eexists _, _. split; [apply batch_loop_run|].
    simpl. split.
    + symmetry. eapply Forall2_length, batch_results_describe.
    + apply batch_results_describe.
  - intros transaction rest ->.
    exists (unit_outcome env self transaction w).1,
           (unit_outcome env self transaction w).2,
           (batch_results env self rest (unit_outcome env self transaction w).2),
           (batch_world env self rest (unit_outcome env self transaction w).2).
    split; [rewrite batch_loop_run; reflexivity|].
    split; [rewrite batch_loop_run; reflexivity|].
    unfold unit_outcome.
    destruct (categorize_transaction env self transaction w) as [[result|e] w1];
      simpl; [reflexivity|].
    split; [reflexivity|].
    destruct (error_result_describes transaction e) as ((Hi & Hd & Ha) & He & _).
    auto.
Qed.

(** A server that lets the first request time out and answers the second. *)
Definition flaky_server : nat -> Request -> PostOutcome := fun n _ =>
  match n with
  | O => PostRaises read_timeout
  | S _ => PostReturns (ok_response (VDict {["response" := VStr "Transportation"]}))
  end.

Definition flaky_env : Env := demo_env flaky_server.

Example batch_continues_after_timeout :
  exists w',
    categorize_batch flaky_env demo_self [starbucks; uber] initial_world =
    (Return [ error_result starbucks (mkExc TimeoutError (timeout_message flaky_env));
              result_of uber "Transportation" 0.95%float (elapsed flaky_env 1%nat) ],
     w') /\
    length (traces w') = 2%nat /\
    length (stdout w') = 2%nat.
Proof. eexists. split; [vm_compute; reflexivity|]. split; reflexivity. Qed.

Lemma batch_returns_one_result_per_transaction_witness :
  exists r w1 results' w',
    categorize_batch flaky_env demo_self [starbucks; uber] initial_world
      = (Return (r :: results'), w') /\
    categorize_batch flaky_env demo_self [uber] w1 = (Return results', w') /\
    r = error_result starbucks (mkExc TimeoutError (timeout_message flaky_env)) /\
    r !! "error" =
      Some (VStr "Request to Ollama timed out. The model llama3.1:8b might be slow.").
Proof.
  destruct (proj2 (batch_returns_one_result_per_transaction
                     flaky_env demo_self [starbucks; uber] initial_world)
              starbucks [uber] eq_refl)
    as (r & w1 & results' & w' & Hrun & Hrest & Hr).
  exists r, w1, results', w'.
  split; [exact Hrun|]. split; [exact Hrest|].
  assert (Hfirst : categorize_transaction flaky_env demo_self starbucks initial_world =
                   (Raise (mkExc TimeoutError (timeout_message flaky_env)),
                    mkWorld [unit_trace demo_self starbucks
                               (failed_calls flaky_env starbucks
                                  (mkExc TimeoutError (timeout_message flaky_env)))]
                            [unit_request flaky_env starbucks] 1%nat []))
    by (vm_compute; reflexivity).
  rewrite Hfirst in Hr. destruct Hr as (-> & _).
  split; reflexivity.
Defined.

(** * Further properties of the code *)

(** ** Text helpers *)

Section Text.

Definition first_char (s : string) : option ascii :=
  match s with
  | EmptyString => None
  | String c _ => Some c
  end.

Fixpoint last_char (s : string) : option ascii :=
  match s with
  | EmptyString => None
  | String c EmptyString => Some c
  | String _ r => last_char r
  end.

Lemma lstrip_first (s : string) (c : ascii) :
  first_char (lstrip s) = Some c -> isspace c = false.
Proof.
  induction s as [|a r IH]; simpl; [discriminate|].
  destruct (isspace a) eqn:Ha; [exact IH|].
  simpl. intros H; injection H as <-. exact Ha.
Qed.

Lemma rstrip_first (s : string) (c : ascii) :
  first_char (rstrip s) = Some c -> first_char s = Some c.
Proof.
  destruct s as [|a r]; simpl; [discriminate|].
  destruct (rstrip r); [destruct (isspace a); [discriminate|]|]; simpl; auto.
Qed.

Lemma rstrip_last (s : string) (c : ascii) :
  last_char (rstrip s) = Some c -> isspace c = false.
Proof.
  induction s as [|a r IH]; simpl; [discriminate|].
  destruct (rstrip r) as [|b r'] eqn:Hr.
  - destruct (isspace a) eqn:Ha; simpl; [discriminate|].
    intros H; injection H as <-. exact Ha.
  - intros H. apply IH. exact H.
Qed.

Lemma rstrip_idempotent (s : string) : rstrip (rstrip s) = rstrip s.
Proof.
  induction s as [|a r IH]; simpl; [reflexivity|].
  destruct (rstrip r) as [|b r'] eqn:Hr.
  - destruct (isspace a) eqn:Ha; simpl; [reflexivity|]. rewrite Ha. reflexivity.
  - simpl in IH |- *. rewrite IH. reflexivity.
Qed.

Lemma lstrip_fixed (s : string) :
  (forall c, first_char s = Some c -> isspace c = false) -> lstrip s = s.
Proof.
  destruct s as [|a r]; simpl; [reflexivity|].
  intros H. rewrite (H a eq_refl). reflexivity.
Qed.

Lemma strip_first (s : string) (c : ascii) :
  first_char (strip s) = Some c -> isspace c = false.
Proof. unfold strip. intros H. apply (lstrip_first s), rstrip_first, H. Qed.

Lemma strip_last (s : string) (c : ascii) :
  last_char (strip s) = Some c -> isspace c = false.
Proof. unfold strip. apply rstrip_last. Qed.

Lemma strip_idempotent (s : string) : strip (strip s) = strip s.
Proof.
  unfold strip at 1.
  rewrite (lstrip_fixed (strip s)) by apply strip_first.
  unfold strip. apply rstrip_idempotent.
Qed.

Lemma prefix_append (sub rest : string) : String.prefix sub (sub +:+ rest) = true.
Proof.
  induction sub as [|a r IH]; simpl; [destruct rest; reflexivity|].
  destruct (ascii_dec a a); [exact IH|congruence].
Qed.

Lemma contains_of_prefix (sub s : string) :
  String.prefix sub s = true -> contains sub s = true.
Proof. destruct s; cbn [contains]; intros ->; reflexivity. Qed.

Lemma contains_append (pre sub post : string) :
  contains sub (pre +:+ sub +:+ post) = true.
Proof.
  induction pre as [|a r IH].
  - change ("" +:+ sub +:+ post) with (sub +:+ post).
    apply contains_of_prefix, prefix_append.
  - change (String a r +:+ sub +:+ post) with (String a (r +:+ sub +:+ post)).
    cbn [contains]. rewrite IH. apply orb_true_r.
Qed.

Lemma append_empty_r (s : string) : s +:+ "" = s.
Proof.
  induction s as [|a r IH]; [reflexivity|].
  change (String a r +:+ "") with (String a (r +:+ "")). rewrite IH. reflexivity.
Qed.

Lemma contains_append_r (pre sub s : string) :
  contains sub s = true -> contains sub (pre +:+ s) = true.
Proof.
  intros H. induction pre as [|a r IH]; [exact H|].
  change (String a r +:+ s) with (String a (r +:+ s)).
  cbn [contains]. rewrite IH. apply orb_true_r.
Qed.

Lemma append_assoc (a b c : string) : (a +:+ b) +:+ c = a +:+ b +:+ c.
Proof.
  induction a as [|x r IH]; [reflexivity|].
  change ((String x r +:+ b) +:+ c) with (String x ((r +:+ b) +:+ c)).
  rewrite IH. reflexivity.
Qed.

Lemma contains_suffix (pre sub : string) : contains sub (pre +:+ sub) = true.
Proof.
  rewrite <- (append_empty_r sub) at 2. apply contains_append.
Qed.

Lemma upper_ascii_idempotent (c : ascii) : upper_ascii (upper_ascii c) = upper_ascii c.
Proof.
  destruct c as [[] [] [] [] [] [] [] []]; reflexivity.
Qed.

Lemma upper_idempotent (s : string) : upper (upper s) = upper s.
Proof.
  induction s as [|a r IH]; simpl; [reflexivity|].
  rewrite upper_ascii_idempotent, IH. reflexivity.
Qed.

End Text.

(** ** The model call, outcome by outcome *)

Section Answers.
Variable env : Env.

Definition generate_url : string := OLLAMA_API_URL env +:+ "/api/generate".

(** What the [try] block of [_call_ollama] makes of the outcome of its
    request: the exception it raises, or the category and the usage it
    records. *)
Definition reading (o : PostOutcome) : PyExc + (string * Dict) :=
  match o with
  | PostRaises e => inl e
  | PostReturns r =>
      if (400 <=? status_code r) && (status_code r <? 500) then
        inl (mkExc HTTPError (pretty (status_code r) +:+ " Client Error: " +:+
                              reason r +:+ " for url: " +:+ generate_url))
      else if (500 <=? status_code r) && (status_code r <? 600) then
        inl (mkExc HTTPError (pretty (status_code r) +:+ " Server Error: " +:+
                              reason r +:+ " for url: " +:+ generate_url))
      else
        match json r with
        | inl e => inl e
        | inr (VDict d) =>
            match default (VStr "") (d !! "response") with
            | VStr s => inr (strip s, usage_of d)
            | v => inl (no_attribute v "strip")
            end
        | inr v => inl (no_attribute v "get")
        end
  end.

(** The exception [_call_ollama] raises for a failure inside. *)
Definition surfaced (e0 : PyExc) : PyExc :=
  if is_requests_ConnectionError (exc_class e0) then
    mkExc ConnectionError (connect_message env e0)
  else if is_requests_Timeout (exc_class e0) then
    mkExc TimeoutError (timeout_message env)
  else
    mkExc RuntimeError (other_message e0).

Definition requested (prompt : string) (w : World) : World :=
  mkWorld (traces w) (http_log w ++ [generate_request env prompt])
          (clock_reads w) (stdout w).

Definition answered (prompt : string) (trace : TraceHandle) (category : string)
    (usage : Dict) (w : World) : World :=
  mkWorld (alter (record (generation_of env prompt category usage)) trace (traces w))
          (http_log w ++ [generate_request env prompt]) (clock_reads w) (stdout w).

Lemma call_ollama_body_run (transaction : Transaction) (prompt : string)
    (trace : TraceHandle) (w : World) :
  call_ollama_body env transaction prompt trace w =
  match reading (requests_post env (length (http_log w)) (generate_request env prompt)) with
  | inl e => (Raise e, requested prompt w)
  | inr (category, usage) =>
      (Return (category, 0.95%float), answered prompt trace category usage w)
  end.
Proof.
  unfold call_ollama_body.
  unfold mbind at 1, M_bind at 1, post at 1.
  fold (generate_request env prompt). fold (requested prompt w).
  destruct (requests_post env (length (http_log w)) (generate_request env prompt))
    as [e0|r]; [reflexivity|].
  unfold mbind at 1, M_bind at 1, raise_for_status at 1. unfold reading.
  fold generate_url.
  destruct ((400 <=? status_code r) && (status_code r <? 500)); [reflexivity|].
  destruct ((500 <=? status_code r) && (status_code r <? 600)); [reflexivity|].
  unfold mret at 1, M_ret at 1.
  unfold mbind at 1, M_bind at 1, response_json at 1.
  destruct (json r) as [e1|v]; [reflexivity|].
  unfold mret at 1, M_ret at 1.
  unfold mbind at 1, M_bind at 1.
  destruct v as [| | | | |lv|d]; try reflexivity.
  assert (Hget : forall key dflt w0,
             method_get (VDict d) key dflt w0 = (Return (default dflt (d !! key)), w0)).
  { intros key dflt w0. unfold method_get. destruct (d !! key); reflexivity. }
  rewrite Hget.
  unfold mbind at 1, M_bind at 1, method_strip at 1.
  destruct (default (VStr "") (d !! "response")) as [| | | |s| |]; try reflexivity.
  unfold mret at 1, M_ret at 1.
  rewrite (bind_return _ _ _ _ _ (Hget _ _ _)).
  rewrite (bind_return _ _ _ _ _ (Hget _ _ _)).
  unfold mbind, M_bind, add_generation, trace_call, mret, M_ret.
  rewrite !or_empty_dict_insert. reflexivity.
Qed.

Lemma call_ollama_except_run (e0 : PyExc) (w : World) :
  call_ollama_except env e0 w = (Raise (surfaced e0), w).
Proof.
  unfold call_ollama_except, surfaced.
  destruct (is_requests_ConnectionError (exc_class e0)); [reflexivity|].
  destruct (is_requests_Timeout (exc_class e0)); reflexivity.
Qed.

Lemma call_ollama_run (transaction : Transaction) (prompt : string)
    (trace : TraceHandle) (w : World) :
  _call_ollama env transaction prompt trace w =
  match reading (requests_post env (length (http_log w)) (generate_request env prompt)) with
  | inl e => (Raise (surfaced e), requested prompt w)
  | inr (category, usage) =>
      (Return (category, 0.95%float), answered prompt trace category usage w)
  end.
Proof.
  unfold _call_ollama, try_except. rewrite call_ollama_body_run.
  destruct (reading _) as [e|[category usage]]; [|reflexivity].
  apply call_ollama_except_run.
Qed.

(** The outcome of the request a unit of work sends from world [w]. *)
Definition unit_reading (transaction : Transaction) (w : World)
    : PyExc + (string * Dict) :=
  reading (requests_post env (length (http_log w)) (unit_request env transaction)).

Definition unit_failed (self : TransactionCategorizer) (transaction : Transaction)
    (e : PyExc) (w : World) : World :=
  mkWorld (traces w ++ [unit_trace self transaction (failed_calls env transaction e)])
          (http_log w ++ [unit_request env transaction])
          (S (clock_reads w)) (stdout w).

Definition unit_done (self : TransactionCategorizer) (transaction : Transaction)
    (category : string) (usage : Dict) (w : World) : World :=
  mkWorld (traces w ++ [unit_trace self transaction
             (successful_calls env transaction category usage (clock_reads w))])
          (http_log w ++ [unit_request env transaction])
          (S (S (clock_reads w))) (stdout w).

Lemma categorize_transaction_run (self : TransactionCategorizer)
    (transaction : Transaction) (w : World) :
  categorize_transaction env self transaction w =
  match unit_reading transaction w with
  | inl e0 => (Raise (surfaced e0), unit_failed self transaction (surfaced e0) w)
  | inr (category, usage) =>
      (Return (result_of transaction category 0.95%float
                 (elapsed env (clock_reads w))),
       unit_done self transaction category usage w)
  end.
Proof.
  destruct w as [l h k o].
  unfold unit_reading, unit_failed, unit_done.
  cbn [traces http_log clock_reads stdout].
  unfold categorize_transaction.
  rewrite (bind_return _ _ _ _ _ (create_unit_trace self transaction l h k o)).
  pose proof (call_ollama_run transaction (_create_prompt env transaction)
                (length l) (before_call env self transaction l h k o)) as Hcall.
  cbn [before_call http_log] in Hcall. fold (unit_request env transaction) in Hcall.
  destruct (reading (requests_post env (length h) (unit_request env transaction)))
    as [e0|[category usage]].
  - rewrite (except_clause_after_raise _ _ _ _ _
               (categorize_steps_raise env self transaction l h k o _ _ Hcall)).
    unfold requested, before_call. cbn [traces http_log clock_reads stdout].
    rewrite alter_last. reflexivity.
  - unfold try_except.
    rewrite (categorize_steps_return env self transaction l h _ k o category _ Hcall).
    reflexivity.
Qed.

End Answers.

(** ** More on the model call *)

Definition is_http_error (r : Response) : bool :=
  (400 <=? status_code r) && (status_code r <? 600).

Lemma reading_http_error (env : Env) (r : Response) :
  is_http_error r = true ->
  exists kind,
    (kind = " Client Error: " \/ kind = " Server Error: ") /\
    reading env (PostReturns r) =
    inl (mkExc HTTPError (pretty (status_code r) +:+ kind +:+ reason r +:+
                          " for url: " +:+ generate_url env)).
Proof.
  unfold is_http_error, reading. intros H.
  destruct (400 <=? status_code r) eqn:E1; [|discriminate].
  destruct (status_code r <? 500) eqn:E2; simpl.
  - exists " Client Error: ". split; [left|]; reflexivity.
  - assert (E3 : (500 <=? status_code r) = true) by lia.
    rewrite E3. simpl in H. rewrite H. simpl.
    exists " Server Error: ". split; [right|]; reflexivity.
Qed.

(** X1: an answer whose status is 400 to 599 makes [_call_ollama] raise a
    [RuntimeError], whatever the body holds: the message starts with "Error
    calling Ollama: " and carries the status code; the one request was sent
    and no generation is recorded. *)
Theorem http_error_status_raises_runtime_error
    (env : Env) (transaction : Transaction) (prompt : string)
    (trace : TraceHandle) (w : World) (r : Response) :
  requests_post env (length (http_log w)) (generate_request env prompt) = PostReturns r ->
  400 <= status_code r < 600 ->
  exists message,
    _call_ollama env transaction prompt trace w =
      (Raise (mkExc RuntimeError message), requested env prompt w) /\
    String.prefix ("Error calling Ollama: " +:+ pretty (status_code r)) message = true /\
    contains (reason r) message = true /\
    traces (requested env prompt w) = traces w /\
    http_log (requested env prompt w) = http_log w ++ [generate_request env prompt].
Proof.
  intros Hpost Hstatus.
  assert (Herr : is_http_error r = true) by (unfold is_http_error; lia).
  destruct (reading_http_error env r Herr) as (kind & Hkind & Hread).
  rewrite call_ollama_run, Hpost, Hread.
  exists (other_message (mkExc HTTPError
            (pretty (status_code r) +:+ kind +:+ reason r +:+
             " for url: " +:+ generate_url env))).
  split; [reflexivity|].
  unfold other_message; cbn [exc_str].
  split; [|split; [|split; reflexivity]].
  - rewrite <- append_assoc. apply prefix_append.
  - rewrite <- (append_assoc _ (pretty (status_code r))).
    rewrite <- (append_assoc _ kind).
    apply contains_append.
Qed.

Lemma http_error_status_raises_runtime_error_witness :
  exists message,
    _call_ollama
      (demo_env (always (PostReturns (mkResponse 404 "Not Found" (inr (VDict bare_answer))))))
      starbucks "prompt" 0%nat demo_world =
      (Raise (mkExc RuntimeError message),
       requested
         (demo_env (always (PostReturns (mkResponse 404 "Not Found"
                                           (inr (VDict bare_answer))))))
         "prompt" demo_world) /\
    String.prefix "Error calling Ollama: 404" message = true /\
    contains "Not Found" message = true.
Proof.
  destruct (http_error_status_raises_runtime_error
              (demo_env (always (PostReturns (mkResponse 404 "Not Found"
                                                (inr (VDict bare_answer))))))
              starbucks "prompt" 0%nat demo_world
              (mkResponse 404 "Not Found" (inr (VDict bare_answer)))
              eq_refl ltac:(simpl; lia))
    as (message & Hrun & Hprefix & Hreason & _).
  exists message. split; [exact Hrun|]. split; [exact Hprefix|exact Hreason].
Defined.

Lemma reading_ok (env : Env) (r : Response) :
  is_http_error r = false ->
  reading env (PostReturns r) =
  match json r with
  | inl e => inl e
  | inr (VDict d) =>
      match default (VStr "") (d !! "response") with
      | VStr s => inr (strip s, usage_of d)
      | v => inl (no_attribute v "strip")
      end
  | inr v => inl (no_attribute v "get")
  end.
Proof.
  unfold is_http_error, reading. intros H.
  destruct (400 <=? status_code r) eqn:E1, (status_code r <? 500) eqn:E2,
           (500 <=? status_code r) eqn:E3, (status_code r <? 600) eqn:E4;
    simpl in *; try reflexivity; try discriminate; exfalso; lia.
Qed.

(** X2: an answer that is not an HTTP error but cannot be read makes
    [_call_ollama] raise a [RuntimeError] and record nothing: a body that
    fails to decode gives the decoder's message; a decoded body that is not a
    dictionary, or whose ["response"] entry is not a string, gives the
    message of the missing attribute ([get] or [strip]). *)
Theorem unreadable_answer_raises_runtime_error
    (env : Env) (transaction : Transaction) (prompt : string)
    (trace : TraceHandle) (w : World) (r : Response) :
  requests_post env (length (http_log w)) (generate_request env prompt) = PostReturns r ->
  is_http_error r = false ->
  (forall e1,
     json r = inl e1 ->
     is_requests_ConnectionError (exc_class e1) = false ->
     is_requests_Timeout (exc_class e1) = false ->
     _call_ollama env transaction prompt trace w =
     (Raise (mkExc RuntimeError ("Error calling Ollama: " +:+ exc_str e1)),
      requested env prompt w)) /\
  (forall v,
     json r = inr v ->
     (forall d, v <> VDict d) ->
     _call_ollama env transaction prompt trace w =
     (Raise (mkExc RuntimeError
               ("Error calling Ollama: '" +:+ type_name v +:+
                "' object has no attribute 'get'")),
      requested env prompt w)) /\
  (forall d v,
     json r = inr (VDict d) ->
     d !! "response" = Some v ->
     (forall s, v <> VStr s) ->
     _call_ollama env transaction prompt trace w =
     (Raise (mkExc RuntimeError
               ("Error calling Ollama: '" +:+ type_name v +:+
                "' object has no attribute 'strip'")),
      requested env prompt w)) /\
  traces (requested env prompt w) = traces w.
Proof.
  intros Hpost Hok.
  split; [|split; [|split; [|reflexivity]]].
  - intros e1 Hjson Hc Ht.
    rewrite call_ollama_run, Hpost, (reading_ok env r Hok), Hjson.
    unfold surfaced. rewrite Hc, Ht. reflexivity.
  - intros v Hjson Hv.
    rewrite call_ollama_run, Hpost, (reading_ok env r Hok), Hjson.
    destruct v; try reflexivity. exfalso. eapply Hv. reflexivity.
  - intros d v Hjson Hresp Hv.
    rewrite call_ollama_run, Hpost, (reading_ok env r Hok), Hjson, Hresp.
    destruct v; try reflexivity. exfalso. eapply Hv. reflexivity.
Qed.

(** A server whose answer has [null] where the text should be. *)
Definition null_answer : Dict := {["response" := VNone]}.

Definition null_env : Env :=
  demo_env (always (PostReturns (ok_response (VDict null_answer)))).

Lemma unreadable_answer_raises_runtime_error_witness :
  _call_ollama null_env starbucks "prompt" 0%nat demo_world =
  (Raise (mkExc RuntimeError
            "Error calling Ollama: 'NoneType' object has no attribute 'strip'"),
   requested null_env "prompt" demo_world).
Proof.
  apply (proj1 (proj2 (proj2 (unreadable_answer_raises_runtime_error
                                null_env starbucks "prompt" 0%nat demo_world
                                (ok_response (VDict null_answer)) eq_refl eq_refl)))
           null_answer VNone eq_refl eq_refl).
  discriminate.
Defined.

(** X3: an answer without a ["response"] entry, or whose text is only white
    space, is not an error: the category is the empty string, and the
    generation is still recorded on the trace, with an empty output. *)
Theorem empty_answer_is_recorded
    (env : Env) (transaction : Transaction) (prompt : string)
    (trace : TraceHandle) (w : World) (t : Trace) (r : Response) (d : Dict) :
  traces w !! trace = Some t ->
  requests_post env (length (http_log w)) (generate_request env prompt) = PostReturns r ->
  is_http_error r = false ->
  json r = inr (VDict d) ->
  (d !! "response" = None \/ exists s, d !! "response" = Some (VStr s) /\ strip s = "") ->
  exists w',
    _call_ollama env transaction prompt trace w = (Return ("", 0.95%float), w') /\
    traces w' !! trace =
      Some (record (generation "ollama_categorization" (OLLAMA_MODEL env) prompt ""
                      (usage_of d)
                      (<["temperature" := VFloat 0.3]>
                       (<["top_p" := VFloat 0.9]>
                       (<["ollama_host" := VStr (OLLAMA_API_URL env)]> ∅)))) t) /\
    length (observations (record (generation_of env prompt "" (usage_of d)) t)) =
      S (length (observations t)).
Proof.
  intros Ht Hpost Hok Hjson Hresp.
  assert (Hread : reading env (PostReturns r) = inr ("", usage_of d)).
  { rewrite (reading_ok env r Hok), Hjson.
    destruct Hresp as [-> | (s & -> & Hs)]; simpl; [reflexivity|].
    rewrite Hs. reflexivity. }
  eexists. split; [rewrite call_ollama_run, Hpost, Hread; reflexivity|].
  unfold answered; cbn [traces].
  split; [rewrite list_lookup_alter_eq, Ht; reflexivity|].
  rewrite observations_record, length_app. simpl. lia.
Qed.

Definition silent_env : Env :=
  demo_env (always (PostReturns (ok_response (VDict ∅)))).

Lemma empty_answer_is_recorded_witness :
  exists w',
    _call_ollama silent_env starbucks "prompt" 0%nat demo_world
      = (Return ("", 0.95%float), w') /\
    traces w' !! 0%nat =
      Some (record (generation_of silent_env "prompt" "" (usage_of ∅)) demo_trace).
Proof.
  destruct (empty_answer_is_recorded silent_env starbucks "prompt" 0%nat demo_world
              demo_trace (ok_response (VDict ∅)) ∅ eq_refl eq_refl eq_refl eq_refl
              (or_introl eq_refl))
    as (w' & Hrun & Hl & _).
  exists w'. split; [exact Hrun|exact Hl].
Defined.

Lemma reading_category (env : Env) (o : PostOutcome) (category : string) (usage : Dict) :
  reading env o = inr (category, usage) -> exists s, category = strip s.
Proof.
  unfold reading. destruct o as [e|r]; [discriminate|].
  destruct ((400 <=? status_code r) && (status_code r <? 500)); [discriminate|].
  destruct ((500 <=? status_code r) && (status_code r <? 600)); [discriminate|].
  destruct (json r) as [e|v]; [discriminate|].
  destruct v; try discriminate.
  destruct (default (VStr "") (d !! "response")); try discriminate.
  intros H; injection H as <- _. eexists; reflexivity.
Qed.

(** X4: the category [_call_ollama] returns never starts or ends with
    white space, so that stripping it again changes nothing; the confidence
    that comes with it is always 0.95. *)
Theorem category_has_no_surrounding_space
    (env : Env) (transaction : Transaction) (prompt : string)
    (trace : TraceHandle) (w w' : World) (category : string) (confidence : float) :
  _call_ollama env transaction prompt trace w = (Return (category, confidence), w') ->
  (forall c, first_char category = Some c -> isspace c = false) /\
  (forall c, last_char category = Some c -> isspace c = false) /\
  strip category = category /\
  confidence = 0.95%float.
Proof.
  rewrite call_ollama_run.
  destruct (reading env _) as [e|[category' usage]] eqn:Hread; [discriminate|].
  intros H; injection H as <- <- _.
  destruct (reading_category env _ _ _ Hread) as (s & ->).
  split; [apply strip_first|]. split; [apply strip_last|].
  split; [apply strip_idempotent|reflexivity].
Qed.

Lemma category_has_no_surrounding_space_witness :
  _call_ollama bare_env starbucks "prompt" 0%nat demo_world =
    (Return ("Food & Dining", 0.95%float),
     answered bare_env "prompt" 0%nat "Food & Dining" (usage_of bare_answer) demo_world) /\
  strip "Food & Dining" = "Food & Dining".
Proof.
  assert (H : _call_ollama bare_env starbucks "prompt" 0%nat demo_world =
              (Return ("Food & Dining", 0.95%float),
               answered bare_env "prompt" 0%nat "Food & Dining" (usage_of bare_answer)
                 demo_world)) by reflexivity.
  split; [exact H|].
  apply (category_has_no_surrounding_space bare_env starbucks "prompt" 0%nat
           demo_world _ _ _ H).
Defined.

(** X5: when the request itself fails, the message [_call_ollama] raises
    with keeps the text of the failure if it surfaces as [ConnectionError] or
    [RuntimeError]; a timeout surfaces with one fixed message, the same for
    every timeout, and the text of the failure is lost. *)
Theorem surfaced_message_keeps_cause_except_for_timeouts
    (env : Env) (transaction : Transaction) (prompt : string)
    (trace : TraceHandle) (w : World) (e0 : PyExc) :
  requests_post env (length (http_log w)) (generate_request env prompt) = PostRaises e0 ->
  exists e,
    _call_ollama env transaction prompt trace w = (Raise e, requested env prompt w) /\
    (exc_class e <> TimeoutError -> contains (exc_str e0) (exc_str e) = true) /\
    (exc_class e = TimeoutError ->
     exc_str e =
       "Request to Ollama timed out. The model " +:+ OLLAMA_MODEL env +:+
       " might be slow.") /\
    (exc_class e = TimeoutError <->
     is_requests_ConnectionError (exc_class e0) = false /\
     is_requests_Timeout (exc_class e0) = true).
Proof.
  intros Hpost. exists (surfaced env e0).
  split; [rewrite call_ollama_run, Hpost; reflexivity|].
  unfold surfaced.
  destruct (is_requests_ConnectionError (exc_class e0));
    [|destruct (is_requests_Timeout (exc_class e0))]; cbn [exc_class exc_str].
  - split; [intros _|split; [discriminate|split; [discriminate|intros [? _]; discriminate]]].
    unfold connect_message.
    do 6 apply contains_append_r. apply contains_suffix.
  - split; [congruence|]. split; [reflexivity|]. split; auto.
  - split; [intros _; apply contains_suffix|].
    split; [discriminate|split; [discriminate|intros [_ ?]; discriminate]].
Qed.

(** A server that refuses the connection. *)
Definition refused : PyExc :=
  mkExc requests_ConnectionError
    "HTTPConnectionPool(host='localhost', port=11434): Max retries exceeded".

Definition refusing_env : Env := demo_env (always (PostRaises refused)).

Lemma surfaced_message_keeps_cause_except_for_timeouts_witness :
  exists e,
    _call_ollama refusing_env starbucks "prompt" 0%nat demo_world
      = (Raise e, requested refusing_env "prompt" demo_world) /\
    exc_class e = ConnectionError /\
    contains "Max retries exceeded" (exc_str e) = true.
Proof.
  destruct (surfaced_message_keeps_cause_except_for_timeouts
              refusing_env starbucks "prompt" 0%nat demo_world refused eq_refl)
    as (e & Hrun & Hkeeps & _ & _).
  exists e. split; [exact Hrun|].
  assert (He : e = surfaced refusing_env refused).
  { assert (H : _call_ollama refusing_env starbucks "prompt" 0%nat demo_world =
                (Raise (surfaced refusing_env refused),
                 requested refusing_env "prompt" demo_world)) by reflexivity.
    rewrite H in Hrun. injection Hrun as <-. reflexivity. }
  subst e. split; reflexivity.
Defined.

(** X6: whatever the server does, [_call_ollama] sends exactly one request,
    to the [/api/generate] endpoint with a timeout of 30, asking for the
    configured model, the prompt and no streaming; it does not read the clock
    or print.  When it raises, the store of traces is as before; when it
    returns, the trace it was given holds one more call, a generation for the
    prompt whose output is the returned category, and every other trace is as
    before. *)
Theorem model_call_sends_one_request
    (env : Env) (transaction : Transaction) (prompt : string)
    (trace : TraceHandle) (w : World) :
  exists o w' rq,
    _call_ollama env transaction prompt trace w = (o, w') /\
    http_log w' = http_log w ++ [rq] /\
    req_url rq = OLLAMA_API_URL env +:+ "/api/generate" /\
    req_timeout rq = 30 /\
    req_json rq !! "model" = Some (VStr (OLLAMA_MODEL env)) /\
    req_json rq !! "prompt" = Some (VStr prompt) /\
    req_json rq !! "stream" = Some (VBool false) /\
    clock_reads w' = clock_reads w /\
    stdout w' = stdout w /\
    (forall other, other <> trace -> traces w' !! other = traces w !! other) /\
    match o with
    | Raise _ => traces w' = traces w
    | Return (category, _) =>
        forall t, traces w !! trace = Some t ->
        exists usage metadata,
          traces w' !! trace =
          Some (record (generation "ollama_categorization" (OLLAMA_MODEL env)
                          prompt category usage metadata) t)
    end.
Proof.
  exists (_call_ollama env transaction prompt trace w).1,
         (_call_ollama env transaction prompt trace w).2,
         (generate_request env prompt).
  split; [destruct (_call_ollama env transaction prompt trace w); reflexivity|].
  rewrite call_ollama_run.
  destruct (reading env _) as [e|[category usage]]; cbn [fst snd];
    unfold requested, answered; cbn [traces http_log clock_reads stdout];
    (split; [reflexivity|]); (split; [reflexivity|]); (split; [reflexivity|]);
    (split; [reflexivity|]); (split; [reflexivity|]); (split; [reflexivity|]);
    (split; [reflexivity|]); (split; [reflexivity|]).
  - split; [reflexivity|reflexivity].
  - split.
    + intros other Hne. apply list_lookup_alter_ne. congruence.
    + intros t Ht. eexists _, _. rewrite list_lookup_alter_eq, Ht. reflexivity.
Qed.

(** ** More on one unit of work *)

(** X7: a unit of work raises exactly when its model call raises, and then
    with the same exception: the steps around the model call never fail. *)
Theorem unit_fails_exactly_when_model_call_fails
    (env : Env) (self : TransactionCategorizer) (transaction : Transaction)
    (w : World) (e : PyExc) :
  (exists w', categorize_transaction env self transaction w = (Raise e, w')) <->
  (exists w1,
     _call_ollama env transaction (_create_prompt env transaction) (length (traces w))
       (before_call env self transaction (traces w) (http_log w) (clock_reads w)
          (stdout w)) = (Raise e, w1)).
Proof.
  rewrite categorize_transaction_run, call_ollama_run.
  unfold unit_reading, unit_request. cbn [before_call http_log].
  destruct (reading env _) as [e0|[category usage]].
  - split; intros [w' H]; injection H as <- _; eexists; reflexivity.
  - split; intros [w' H]; discriminate.
Qed.

(** The kind and the name of a call on a trace. *)
Definition label (c : TraceCall) : string * string :=
  match c with
  | span name _ _ _ => ("span", name)
  | generation name _ _ _ _ _ => ("generation", name)
  | update _ => ("update", "")
  end.

(** X8: a unit of work adds one trace to the store, named
    [categorize_transaction], for user [system], in the categorizer's session,
    with the transaction's id, amount and date as metadata.  When the unit
    returns, the trace holds two spans, one generation and one span, in that
    order; when it raises, it holds the two spans and the error span, and no
    generation; the error span's input is then one of three class names. *)
Theorem unit_trace_shape
    (env : Env) (self : TransactionCategorizer) (transaction : Transaction)
    (w : World) :
  exists o w' t,
    categorize_transaction env self transaction w = (o, w') /\
    traces w' = traces w ++ [t] /\
    trace_name t = "categorize_transaction" /\
    user_id t = Some "system" /\
    session_id t = Some (categorizer_session_id self) /\
    trace_metadata t !! "transaction_id" = Some (VStr (id transaction)) /\
    trace_metadata t !! "amount" = Some (VFloat (amount transaction)) /\
    trace_metadata t !! "date" = Some (VStr (date transaction)) /\
    match o with
    | Return _ =>
        map label (observations t) =
        [ ("span", "prepare_transaction_data"); ("span", "create_prompt");
          ("generation", "ollama_categorization"); ("span", "validate_result") ]
    | Raise e =>
        map label (observations t) =
        [ ("span", "prepare_transaction_data"); ("span", "create_prompt");
          ("span", "error") ] /\
        last (observations t) = Some (error_span e) /\
        (class_name (exc_class e) = "ConnectionError" \/
         class_name (exc_class e) = "TimeoutError" \/
         class_name (exc_class e) = "RuntimeError")
    end.
Proof.
  rewrite categorize_transaction_run.
  destruct (unit_reading env transaction w) as [e0|[category usage]];
    eexists _, _, _; (split; [reflexivity|]); (split; [reflexivity|]);
    (split; [reflexivity|]); (split; [reflexivity|]); (split; [reflexivity|]);
    (split; [reflexivity|]); (split; [reflexivity|]); (split; [reflexivity|]).
  - split; [reflexivity|]. split; [reflexivity|].
    unfold surfaced.
    destruct (is_requests_ConnectionError (exc_class e0));
      [|destruct (is_requests_Timeout (exc_class e0))]; simpl; auto.
  - reflexivity.
Qed.

(** The text a generation carries as output. *)
Definition generation_output (c : TraceCall) : option string :=
  match c with
  | generation _ _ _ output _ _ => Some output
  | _ => None
  end.

(** X9: the result a unit of work returns has exactly six entries; its
    category is the output of the generation on the unit's trace; its
    confidence is 0.95; its processing time is a thousand times the difference
    of the two clock readings around the model call, the only two the unit
    makes; and the result is what the trace's output was set to. *)
Theorem unit_result_agrees_with_trace
    (env : Env) (self : TransactionCategorizer) (transaction : Transaction)
    (w w' : World) (result : Dict) :
  categorize_transaction env self transaction w = (Return result, w') ->
  exists t g category,
    traces w' = traces w ++ [t] /\
    output t = Some (VDict result) /\
    calls t !! 2%nat = Some g /\
    generation_output g = Some category /\
    result !! "category" = Some (VStr category) /\
    result !! "confidence" = Some (VFloat 0.95) /\
    result !! "processing_time_ms" =
      Some (VFloat ((time_time env (S (clock_reads w)) - time_time env (clock_reads w))
                    * 1000)%float) /\
    clock_reads w' = S (S (clock_reads w)) /\
    result !! "transaction_id" = Some (VStr (id transaction)) /\
    result !! "description" = Some (VStr (description transaction)) /\
    result !! "amount" = Some (VFloat (amount transaction)) /\
    dom result =
      ({[ "transaction_id"; "description"; "amount"; "category"; "confidence";
          "processing_time_ms" ]} : gset string).
Proof.
  rewrite categorize_transaction_run.
  destruct (unit_reading env transaction w) as [e0|[category usage]]; [discriminate|].
  intros H; injection H as <- <-.
  eexists _, _, category.
  split; [reflexivity|]. split; [reflexivity|]. split; [reflexivity|].
  split; [reflexivity|].
  repeat (split; [reflexivity|]).
  unfold result_of. rewrite !dom_insert_L, dom_empty_L. set_solver.
Qed.

Lemma unit_result_agrees_with_trace_witness :
  exists result w' t g,
    categorize_transaction bare_env demo_self starbucks initial_world
      = (Return result, w') /\
    traces w' = [t] /\
    output t = Some (VDict result) /\
    calls t !! 2%nat = Some g /\
    generation_output g = Some "Food & Dining" /\
    result !! "category" = Some (VStr "Food & Dining").
Proof.
  assert (H : categorize_transaction bare_env demo_self starbucks initial_world =
              (Return (result_of starbucks "Food & Dining" 0.95%float
                         (elapsed bare_env 0%nat)),
               unit_done bare_env demo_self starbucks "Food & Dining"
                 (usage_of bare_answer) initial_world))
    by (vm_compute; reflexivity).
  destruct (unit_result_agrees_with_trace bare_env demo_self starbucks initial_world
              _ _ H)
    as (t & g & category & Ht & Hout & Hg & Hgo & Hcat & _).
  assert (Hc : category = "Food & Dining").
  { assert (Hk : result_of starbucks "Food & Dining" 0.95%float (elapsed bare_env 0%nat)
                   !! "category" = Some (VStr "Food & Dining")) by reflexivity.
    rewrite Hk in Hcat. injection Hcat as <-. reflexivity. }
  subst category.
  exists (result_of starbucks "Food & Dining" 0.95%float (elapsed bare_env 0%nat)),
         (unit_done bare_env demo_self starbucks "Food & Dining"
            (usage_of bare_answer) initial_world), t, g.
  split; [exact H|]. split; [exact Ht|]. split; [exact Hout|].
  split; [exact Hg|]. split; [exact Hgo|exact Hcat].
Defined.

(** ** More on batches *)

Section BatchRuns.
Variable env : Env.
Variable self : TransactionCategorizer.

(** The trace of a unit belongs to its transaction. *)
Definition trace_of (transaction : Transaction) (t : Trace) : Prop :=
  trace_name t = "categorize_transaction" /\
  user_id t = Some "system" /\
  session_id t = Some (categorizer_session_id self) /\
  trace_metadata t = trace_metadata_of transaction /\
  (length (output_updates t) <= 1)%nat.

(** The trace of a unit tells the same story as the unit's result: an
    output equal to the result, or an error span with the error text. *)
Definition trace_tells (r : Dict) (t : Trace) : Prop :=
  match r !! "error" with
  | None => output t = Some (VDict r)
  | Some message =>
      output t = None /\
      exists e, last (calls t) = Some (error_span e) /\ message = VStr (exc_str e)
  end.

(** A result is either a categorization or an error report. *)
Definition well_formed_result (r : Dict) : Prop :=
  (exists category,
     r !! "category" = Some (VStr category) /\
     r !! "confidence" = Some (VFloat 0.95) /\
     r !! "error" = None) \/
  (exists message,
     r !! "error" = Some (VStr message) /\
     r !! "category" = None /\
     r !! "confidence" = None /\
     r !! "processing_time_ms" = None).

Lemma unit_outcome_facts (transaction : Transaction) (w : World) :
  exists t line,
    traces (unit_outcome env self transaction w).2 = traces w ++ [t] /\
    http_log (unit_outcome env self transaction w).2 =
      http_log w ++ [unit_request env transaction] /\
    stdout (unit_outcome env self transaction w).2 = stdout w ++ [line] /\
    trace_of transaction t /\
    trace_tells (unit_outcome env self transaction w).1 t /\
    well_formed_result (unit_outcome env self transaction w).1.
Proof.
  unfold unit_outcome. rewrite categorize_transaction_run.
  destruct (unit_reading env transaction w) as [e0|[category usage]];
    eexists _, _; cbn [fst snd];
    (split; [reflexivity|]); (split; [reflexivity|]); (split; [reflexivity|]).
  - split; [unfold trace_of; simpl; auto 10|].
    split.
    + unfold trace_tells.
      destruct (error_result_describes transaction (surfaced env e0)) as (_ & -> & _).
      split; [reflexivity|]. eexists. split; reflexivity.
    + right. eexists. repeat split; reflexivity.
  - split; [unfold trace_of; simpl; auto 10|].
    split.
    + unfold trace_tells.
      destruct (result_of_describes transaction category 0.95%float
                  (elapsed env (clock_reads w))) as (_ & _ & ->).
      reflexivity.
    + left. eexists. repeat split; reflexivity.
Qed.

Lemma batch_facts (transactions : list Transaction) (w : World) :
  exists new lines,
    traces (batch_world env self transactions w) = traces w ++ new /\
    http_log (batch_world env self transactions w) =
      http_log w ++ map (unit_request env) transactions /\
    stdout (batch_world env self transactions w) = stdout w ++ lines /\
    length lines = length transactions /\
    Forall2 trace_of transactions new /\
    Forall2 trace_tells (batch_results env self transactions w) new /\
    Forall well_formed_result (batch_results env self transactions w).
Proof.
  revert w. induction transactions as [|transaction rest IH]; intros w.
  - exists [], []. simpl. rewrite !app_nil_r. repeat split; constructor.
  - destruct (unit_outcome_facts transaction w)
      as (t & line & Ht & Hh & Ho & Hof & Htells & Hwf).
    destruct (IH (unit_outcome env self transaction w).2)
      as (new & lines & Ht' & Hh' & Ho' & Hlen & Hofs & Htellss & Hwfs).
    exists (t :: new), (line :: lines). simpl.
    rewrite Ht', Ht, Hh', Hh, Ho', Ho, <- !app_assoc. simpl.
    repeat split; try reflexivity; try (constructor; assumption).
    f_equal. exact Hlen.
Qed.

Lemma batch_results_app (xs ys : list Transaction) (w : World) :
  batch_results env self (xs ++ ys) w =
  batch_results env self xs w ++ batch_results env self ys (batch_world env self xs w).
Proof.
  revert w. induction xs as [|x xs IH]; intros w; simpl; [reflexivity|].
  rewrite IH. reflexivity.
Qed.

Lemma batch_world_app (xs ys : list Transaction) (w : World) :
  batch_world env self (xs ++ ys) w =
  batch_world env self ys (batch_world env self xs w).
Proof.
  revert w. induction xs as [|x xs IH]; intros w; simpl; [reflexivity|].
  apply IH.
Qed.

End BatchRuns.

(** X10: a batch adds to the world one trace, one request and one printed
    line per transaction, after those that were there; the requests are
    those of the transactions, in input order. *)
Theorem batch_adds_one_trace_request_and_line_each
    (env : Env) (self : TransactionCategorizer) (transactions : list Transaction)
    (w : World) :
  exists results w' new lines,
    categorize_batch env self transactions w = (Return results, w') /\
    traces w' = traces w ++ new /\
    length new = length transactions /\
    http_log w' = http_log w ++ map (unit_request env) transactions /\
    stdout w' = stdout w ++ lines /\
    length lines = length transactions.
Proof.
  destruct (batch_facts env self transactions w)
    as (new & lines & Ht & Hh & Ho & Hlen & Hofs & _ & _).
  exists (batch_results env self transactions w),
         (batch_world env self transactions w), new, lines.
  split; [apply (batch_loop_run env self transactions [] w)|].
  split; [exact Ht|]. split; [symmetry; eapply Forall2_length; exact Hofs|].
  split; [exact Hh|]. split; [exact Ho|exact Hlen].
Qed.

(** X11: a batch of no transactions returns no result and leaves the world
    as it was; a batch of two lists run one after the other is the batch of
    the first list followed, in the world it leaves, by the batch of the
    second, and its results are theirs, joined. *)
Theorem batch_of_append
    (env : Env) (self : TransactionCategorizer) (xs ys : list Transaction)
    (w : World) :
  categorize_batch env self [] w = (Return [], w) /\
  exists rx w1 ry w2,
    categorize_batch env self xs w = (Return rx, w1) /\
    categorize_batch env self ys w1 = (Return ry, w2) /\
    categorize_batch env self (xs ++ ys) w = (Return (rx ++ ry), w2).
Proof.
  split; [reflexivity|].
  exists (batch_results env self xs w), (batch_world env self xs w),
         (batch_results env self ys (batch_world env self xs w)),
         (batch_world env self ys (batch_world env self xs w)).
  unfold categorize_batch. rewrite !batch_loop_run.
  rewrite batch_results_app, batch_world_app. auto.
Qed.

(** X12: every result of a batch is of one of two kinds, told apart by the
    ["error"] entry: a categorization, with a category, the confidence 0.95
    and no error; or an error report, with the error text and neither
    category, confidence nor processing time. *)
Theorem batch_results_are_categorizations_or_errors
    (env : Env) (self : TransactionCategorizer) (transactions : list Transaction)
    (w : World) :
  exists results w',
    categorize_batch env self transactions w = (Return results, w') /\
    Forall (fun r =>
              (exists category,
                 r !! "category" = Some (VStr category) /\
                 r !! "confidence" = Some (VFloat 0.95) /\
                 r !! "error" = None) \/
              (exists message,
                 r !! "error" = Some (VStr message) /\
                 r !! "category" = None /\
                 r !! "confidence" = None /\
                 r !! "processing_time_ms" = None))
           results.
Proof.
  destruct (batch_facts env self transactions w)
    as (new & lines & _ & _ & _ & _ & _ & _ & Hwf).
  eexists _, _.
  split; [apply (batch_loop_run env self transactions [] w)|].
  exact Hwf.
Qed.

(** X13: the traces a batch adds are those of its transactions, one each
    and in input order: each is named [categorize_transaction], for user
    [system], in the categorizer's one session, carries its transaction's id,
    amount and date as metadata, and had its output assigned at most once. *)
Theorem batch_traces_follow_transactions
    (env : Env) (self : TransactionCategorizer) (transactions : list Transaction)
    (w : World) :
  exists results w' new,
    categorize_batch env self transactions w = (Return results, w') /\
    traces w' = traces w ++ new /\
    Forall2 (fun transaction t =>
               trace_name t = "categorize_transaction" /\
               user_id t = Some "system" /\
               session_id t = Some (categorizer_session_id self) /\
               trace_metadata t = trace_metadata_of transaction /\
               (length (output_updates t) <= 1)%nat)
            transactions new.
Proof.
  destruct (batch_facts env self transactions w)
    as (new & lines & Ht & _ & _ & _ & Hofs & _ & _).
  eexists _, _, new.
  split; [apply (batch_loop_run env self transactions [] w)|].
  split; [exact Ht|exact Hofs].
Qed.

(** X14: the results of a batch and the traces it adds tell the same story,
    position by position: where the result has no ["error"] entry, the
    trace's output is that result; where it has one, the trace has no output,
    its last call is the error span, and the error text of the result is the
    output of that span. *)
Theorem batch_results_match_traces
    (env : Env) (self : TransactionCategorizer) (transactions : list Transaction)
    (w : World) :
  exists results w' new,
    categorize_batch env self transactions w = (Return results, w') /\
    traces w' = traces w ++ new /\
    Forall2 (fun r t =>
               match r !! "error" with
               | None => output t = Some (VDict r)
               | Some message =>
                   output t = None /\
                   exists e, last (calls t) = Some (error_span e) /\
                             message = VStr (exc_str e)
               end)
            results new.
Proof.
  destruct (batch_facts env self transactions w)
    as (new & lines & Ht & _ & _ & _ & _ & Htells & _).
  eexists _, _, new.
  split; [apply (batch_loop_run env self transactions [] w)|].
  split; [exact Ht|exact Htells].
Qed.

(** ** Opening traces and building the client *)

(** X15: the keys of a project are looked up under the upper-cased project
    name, so that two names that differ only in the case of their letters get
    the same client, or fail together; building the client changes nothing in
    the world. *)
Theorem client_keys_ignore_case
    (env : Env) (project1 project2 host : string) (w : World) :
  upper project1 = upper project2 ->
  (forall client w',
     get_langfuse_client env project1 host w = (Return client, w') <->
     get_langfuse_client env project2 host w = (Return client, w')) /\
  ((exists e w', get_langfuse_client env project1 host w = (Raise e, w')) <->
   (exists e w', get_langfuse_client env project2 host w = (Raise e, w'))) /\
  (forall o w', get_langfuse_client env project1 host w = (o, w') -> w' = w).
Proof.
  intros Hup. unfold get_langfuse_client. rewrite Hup.
  destruct (negb (truthy_str (getenv env (upper project2 +:+ "_PUBLIC_KEY"))) ||
            negb (truthy_str (getenv env (upper project2 +:+ "_SECRET_KEY")))).
  - split; [intros client w'; split; discriminate|].
    split; [split; intros _; eexists _, _; reflexivity|].
    intros o w' H; injection H as _ <-. reflexivity.
  - split; [reflexivity|].
    split; [split; intros (e & w' & H); discriminate|].
    intros o w' H; injection H as _ <-. reflexivity.
Qed.

Lemma client_keys_ignore_case_witness :
  get_langfuse_client (demo_env (always (PostReturns (ok_response VNone))))
    "Budget_Claude" default_langfuse_host initial_world =
  (Return demo_client, initial_world).
Proof.
  apply (proj1 (client_keys_ignore_case
                  (demo_env (always (PostReturns (ok_response VNone))))
                  "budget_claude" "Budget_Claude" default_langfuse_host initial_world
                  eq_refl)).
  reflexivity.
Defined.

(** X16: with both keys in place and a finite clock, the constructor
    returns a categorizer whose client holds the two keys and the default
    host, and whose session id is the project name, an underscore and the
    clock reading cut to whole seconds; it reads the clock once and opens no
    trace, sends no request and prints nothing.  When the clock reading is an
    infinity or a NaN, the constructor raises instead. *)
Theorem constructor_builds_session_id
    (env : Env) (project pk sk : string) (w : World) :
  public_key_of env project = Some pk -> pk <> "" ->
  secret_key_of env project = Some sk -> sk <> "" ->
  (forall seconds,
     int_of_float (time_time env (clock_reads w)) = Some seconds ->
     __init__ env project w =
       (Return (mkCategorizer (mkClient pk sk "http://localhost:3001") project
                  (project +:+ "_" +:+ pretty seconds)),
        mkWorld (traces w) (http_log w) (S (clock_reads w)) (stdout w)) /\
     String.prefix (project +:+ "_") (project +:+ "_" +:+ pretty seconds) = true) /\
  (int_of_float (time_time env (clock_reads w)) = None ->
   exists e,
     __init__ env project w =
       (Raise e, mkWorld (traces w) (http_log w) (S (clock_reads w)) (stdout w)) /\
     (exc_class e = ValueError \/ exc_class e = OverflowError)).
Proof.
  intros Hp Hpk Hs Hsk.
  assert (Hclient : get_langfuse_client env project default_langfuse_host w =
                    (Return (mkClient pk sk default_langfuse_host), w)).
  { rewrite get_langfuse_client_truthy.
    - rewrite Hp, Hs. reflexivity.
    - rewrite Hp; simpl. apply negb_true_iff, String.eqb_neq; exact Hpk.
    - rewrite Hs; simpl. apply negb_true_iff, String.eqb_neq; exact Hsk. }
  split.
  - intros seconds Hint. split.
    + unfold __init__. rewrite (bind_return _ _ _ _ _ Hclient).
      unfold mbind at 1, M_bind at 1, read_clock at 1.
      unfold mbind, M_bind, py_int. rewrite Hint. reflexivity.
    + rewrite <- append_assoc. apply prefix_append.
  - intros Hint.
    unfold __init__. rewrite (bind_return _ _ _ _ _ Hclient).
    unfold mbind at 1, M_bind at 1, read_clock at 1.
    unfold mbind, M_bind, py_int. rewrite Hint.
    destruct (is_nan (time_time env (clock_reads w)));
      eexists; (split; [reflexivity|]); simpl; auto.
Qed.

Lemma constructor_builds_session_id_witness :
  __init__ (demo_env (always (PostReturns (ok_response VNone)))) "budget_claude"
    initial_world =
  (Return (mkCategorizer (mkClient "pk-lf-2" "sk-lf-2" "http://localhost:3001")
             "budget_claude" "budget_claude_1700000000"),
   mkWorld [] [] 1%nat []).
Proof.
  apply (proj1 (constructor_builds_session_id
                  (demo_env (always (PostReturns (ok_response VNone))))
                  "budget_claude" "pk-lf-2" "sk-lf-2" initial_world
                  eq_refl ltac:(discriminate) eq_refl ltac:(discriminate))
           1700000000 eq_refl).
Defined.

(** ** The two scripts *)

Section ScriptRuns.
Variable env : Env.
Variable formats : Formats.

Lemma print_run (line : string) (w : World) :
  print line w = (Return tt, printed line w).
Proof. reflexivity. Qed.

(** The shape of a result of a batch. *)
Definition is_batch_result (r : Dict) : Prop :=
  (exists transaction category elapsed_time,
     r = result_of transaction category 0.95%float elapsed_time) \/
  (exists transaction e, r = error_result transaction e).

Lemma unit_outcome_shape (self : TransactionCategorizer) (transaction : Transaction)
    (w : World) :
  is_batch_result (unit_outcome env self transaction w).1.
Proof.
  unfold unit_outcome. rewrite categorize_transaction_run.
  destruct (unit_reading env transaction w) as [e0|[category usage]]; cbn [fst].
  - right. eexists _, _. reflexivity.
  - left. eexists _, _, _. reflexivity.
Qed.

Lemma batch_results_shape (self : TransactionCategorizer)
    (transactions : list Transaction) (w : World) :
  Forall is_batch_result (batch_results env self transactions w).
Proof.
  revert w. induction transactions as [|transaction rest IH]; intros w; simpl.
  - constructor.
  - constructor; [apply unit_outcome_shape|apply IH].
Qed.

(** The amounts of the results without ["error"], in order. *)
Definition amounts (results : list Dict) : list float :=
  omap (fun r : Dict =>
          match r !! "error", r !! "amount" with
          | None, Some (VFloat x) => Some x
          | _, _ => None
          end) results.

(** The total after adding floats to it one by one. *)
Definition add_amount (total : Number) (x : float) : Number :=
  match total with
  | NInt z => NFloat (SF2Prim (binary_normalize prec emax z 0 false) + x)
  | NFloat y => NFloat (y + x)
  end.

Definition total_after (total : Number) (xs : list float) : Number :=
  fold_left add_amount xs total.

Definition small_total (total : Number) : Prop :=
  match total with
  | NInt z => z = 0
  | NFloat _ => True
  end.

Lemma amounts_categorized (transaction : Transaction) (category : string)
    (el : float) (rest : list Dict) :
  amounts (result_of transaction category 0.95%float el :: rest) =
  amount transaction :: amounts rest.
Proof. reflexivity. Qed.

Lemma amounts_failed (transaction : Transaction) (e : PyExc) (rest : list Dict) :
  amounts (error_result transaction e :: rest) = amounts rest.
Proof. reflexivity. Qed.

Lemma subscript_run (d : Dict) (key : string) (v : PyVal) (w : World) :
  d !! key = Some v -> subscript d key w = (Return v, w).
Proof. intros H. unfold subscript. rewrite H. reflexivity. Qed.

Lemma format_s_run (width : nat) (s : string) (w : World) :
  format_s width (VStr s) w = (Return (ljust width s), w).
Proof. reflexivity. Qed.

Lemma format_float_run (code : string) (render : float -> string) (x : float)
    (w : World) :
  format_float code render (VFloat x) w = (Return (render x), w).
Proof. reflexivity. Qed.

Definition categorized_line (transaction : Transaction) (category : string) : string :=
  "ID: " +:+ ljust 10 (id transaction) +:+ " | Amount: $" +:+
  format_8_2f formats (amount transaction) +:+ " | " +:+
  "Category: " +:+ ljust 20 category +:+ " | Confidence: " +:+
  format_2_percent formats 0.95%float.

Definition failed_line (transaction : Transaction) (e : PyExc) : string :=
  "ID: " +:+ ljust 10 (id transaction) +:+ " | ERROR: " +:+ exc_str e.

Lemma show_categorized_run (transaction : Transaction) (category : string)
    (el : float) (w : World) :
  show_categorized formats (result_of transaction category 0.95%float el) w =
  (Return tt, printed (categorized_line transaction category) w).
Proof.
  destruct (result_of_describes transaction category 0.95%float el)
    as ((Hid & _ & Hamount) & Hcat & _).
  assert (Hconf : result_of transaction category 0.95%float el !! "confidence"
                  = Some (VFloat 0.95%float)) by reflexivity.
  unfold show_categorized.
  rewrite (bind_return _ _ _ _ _ (subscript_run _ _ _ w Hid)).
  rewrite (bind_return _ _ _ _ _ (format_s_run _ _ _)).
  rewrite (bind_return _ _ _ _ _ (subscript_run _ _ _ w Hamount)).
  rewrite (bind_return _ _ _ _ _ (format_float_run _ _ _ _)).
  rewrite (bind_return _ _ _ _ _ (subscript_run _ _ _ w Hcat)).
  rewrite (bind_return _ _ _ _ _ (format_s_run _ _ _)).
  rewrite (bind_return _ _ _ _ _ (subscript_run _ _ _ w Hconf)).
  rewrite (bind_return _ _ _ _ _ (format_float_run _ _ _ _)).
  reflexivity.
Qed.

Lemma show_failed_run (transaction : Transaction) (e : PyExc) (w : World) :
  show_failed env (error_result transaction e) w =
  (Return tt, printed (failed_line transaction e) w).
Proof.
  destruct (error_result_describes transaction e) as ((Hid & _ & _) & Herr & _).
  unfold show_failed.
  rewrite (bind_return _ _ _ _ _ (subscript_run _ _ _ w Hid)).
  rewrite (bind_return _ _ _ _ _ (format_s_run _ _ _)).
  rewrite (bind_return _ _ _ _ _ (subscript_run _ _ _ w Herr)).
  reflexivity.
Qed.

Lemma number_iadd_float (total : Number) (x : float) (w : World) :
  small_total total ->
  number_iadd total (VFloat x) w = (Return (add_amount total x), w).
Proof.
  destruct total as [z|y]; [|reflexivity].
  simpl. intros ->. reflexivity.
Qed.

Lemma show_results_run (results : list Dict) (total : Number) (w : World) :
  Forall is_batch_result results ->
  small_total total ->
  exists lines,
    show_results env formats results total w =
      (Return (total_after total (amounts results)),
       mkWorld (traces w) (http_log w) (clock_reads w) (stdout w ++ lines)) /\
    length lines = length results.
Proof.
  intros Hshape. revert total w.
  induction Hshape as [|r rest Hr _ IH]; intros total w Hsmall.
  - exists []. simpl. rewrite app_nil_r. destruct w; auto.
  - destruct Hr as [(transaction & category & el & ->)|(transaction & e & ->)].
    + destruct (IH (add_amount total (amount transaction))
                  (printed (categorized_line transaction category) w))
        as (lines & Hrun & Hlen).
      { destruct total; exact I. }
      exists (categorized_line transaction category :: lines).
      split; [|simpl; f_equal; exact Hlen].
      rewrite amounts_categorized. cbn [total_after fold_left].
      cbn [show_results].
      destruct (result_of_describes transaction category 0.95%float el)
        as ((_ & _ & Hamount) & _ & ->).
      rewrite (bind_return _ _ _ _ _ (subscript_run _ _ _ w Hamount)).
      rewrite (bind_return _ _ _ _ _ (number_iadd_float total _ w Hsmall)).
      rewrite (bind_return _ _ _ _ _ (show_categorized_run _ _ _ _)).
      rewrite Hrun. unfold printed; cbn [traces http_log clock_reads stdout].
      rewrite <- app_assoc. reflexivity.
    + destruct (IH total (printed (failed_line transaction e) w) Hsmall)
        as (lines & Hrun & Hlen).
      exists (failed_line transaction e :: lines).
      split; [|simpl; f_equal; exact Hlen].
      rewrite amounts_failed.
      cbn [show_results].
      destruct (error_result_describes transaction e) as (_ & -> & _).
      rewrite (bind_return _ _ _ _ _ (show_failed_run _ _ _)).
      rewrite Hrun. unfold printed; cbn [traces http_log clock_reads stdout].
      rewrite <- app_assoc. reflexivity.
Qed.

End ScriptRuns.

Section MainRuns.
Variable env : Env.
Variable formats : Formats.

Definition ticked (w : World) : World :=
  mkWorld (traces w) (http_log w) (S (clock_reads w)) (stdout w).

Lemma init_returns (project pk sk : string) (seconds : Z) (w : World) :
  public_key_of env project = Some pk -> pk <> "" ->
  secret_key_of env project = Some sk -> sk <> "" ->
  int_of_float (time_time env (clock_reads w)) = Some seconds ->
  __init__ env project w =
  (Return (mkCategorizer (mkClient pk sk default_langfuse_host) project
             (project +:+ "_" +:+ pretty seconds)), ticked w).
Proof.
  intros Hp Hpk Hs Hsk Hint.
  assert (Hclient : get_langfuse_client env project default_langfuse_host w =
                    (Return (mkClient pk sk default_langfuse_host), w)).
  { rewrite get_langfuse_client_truthy.
    - rewrite Hp, Hs. reflexivity.
    - rewrite Hp; simpl. apply negb_true_iff, String.eqb_neq; exact Hpk.
    - rewrite Hs; simpl. apply negb_true_iff, String.eqb_neq; exact Hsk. }
  unfold __init__. rewrite (bind_return _ _ _ _ _ Hclient).
  unfold mbind at 1, M_bind at 1, read_clock at 1.
  unfold mbind, M_bind, py_int. rewrite Hint. reflexivity.
Qed.

Lemma init_without_keys (project : string) (w : World) :
  truthy_str (public_key_of env project) = false \/
  truthy_str (secret_key_of env project) = false ->
  __init__ env project w = (Raise (configuration_error project), w).
Proof.
  intros H. unfold __init__.
  apply bind_raise, get_langfuse_client_falsy. exact H.
Qed.

(** The float a total is formatted as. *)
Definition total_float (total : Number) : float :=
  match total with
  | NInt z => SF2Prim (binary_normalize prec emax z 0 false)
  | NFloat x => x
  end.

Lemma total_after_small (xs : list float) (total : Number) :
  small_total total -> small_total (total_after total xs).
Proof.
  revert total. induction xs as [|x xs IH]; intros total H; [exact H|].
  apply IH. destruct total; exact I.
Qed.

Lemma format_total_run (code : string) (render : float -> string) (total : Number)
    (w : World) :
  small_total total ->
  format_float code render (number_value total) w =
  (Return (render (total_float total)), w).
Proof.
  destruct total as [z|x]; [|reflexivity].
  simpl. intros ->. reflexivity.
Qed.

Definition welcome_lines : list string :=
  [ nl +:+ rule; "Transaction Categorization with Langfuse Tracing"; rule +:+ nl ].

Definition started_lines : list string :=
  [ "✓ Langfuse client initialized for project: " +:+ PROJECT_NAME;
    "✓ Using Ollama at: " +:+ OLLAMA_API_URL env;
    "✓ Using model: " +:+ OLLAMA_MODEL env +:+ nl ].

Definition stopped_lines (e : PyExc) : list string :=
  [ "✗ Error: " +:+ exc_str e;
    nl +:+ "Please ensure your .env file is configured correctly." ].

Definition with_lines (lines : list string) (w : World) : World :=
  mkWorld (traces w) (http_log w) (clock_reads w) (stdout w ++ lines).

Lemma main_start_returns (pk sk : string) (seconds : Z) (w : World) :
  public_key_of env PROJECT_NAME = Some pk -> pk <> "" ->
  secret_key_of env PROJECT_NAME = Some sk -> sk <> "" ->
  int_of_float (time_time env (clock_reads w)) = Some seconds ->
  main_start env w =
  (Return (Some (mkCategorizer (mkClient pk sk default_langfuse_host) PROJECT_NAME
                   (PROJECT_NAME +:+ "_" +:+ pretty seconds))),
   with_lines started_lines (ticked w)).
Proof.
  intros Hp Hpk Hs Hsk Hint.
  unfold main_start, try_except_class.
  rewrite (bind_return _ _ _ _ _ (init_returns _ _ _ _ _ Hp Hpk Hs Hsk Hint)).
  rewrite !(bind_return _ _ _ _ _ (print_run _ _)).
  unfold mret, M_ret, with_lines, started_lines, printed, ticked.
  cbn [traces http_log clock_reads stdout].
  rewrite <- !app_assoc. reflexivity.
Qed.

Lemma main_start_stops (w : World) :
  truthy_str (public_key_of env PROJECT_NAME) = false \/
  truthy_str (secret_key_of env PROJECT_NAME) = false ->
  main_start env w =
  (Return None, with_lines (stopped_lines (configuration_error PROJECT_NAME)) w).
Proof.
  intros H. unfold main_start, try_except_class.
  rewrite (bind_raise _ _ _ _ _ (init_without_keys _ _ H)).
  cbn [exc_class configuration_error is_ValueError].
  rewrite !(bind_return _ _ _ _ _ (print_run _ _)).
  unfold mret, M_ret, with_lines, stopped_lines, printed.
  cbn [traces http_log clock_reads stdout].
  rewrite <- !app_assoc. reflexivity.
Qed.

End MainRuns.

(** X17: the self-test of tracing.py never raises and prints exactly one
    line: the success line when both keys of [budget_claude] are set and not
    empty, and otherwise the error line, which carries the text of the
    configuration error.  It opens no trace and sends no request. *)
Theorem self_test_prints_one_line (env : Env) (w : World) :
  exists line,
    tracing_main env w = (Return tt, printed line w) /\
    ((truthy_str (public_key_of env "budget_claude") = true /\
      truthy_str (secret_key_of env "budget_claude") = true /\
      line = "✓ Successfully initialized Langfuse client") \/
     ((truthy_str (public_key_of env "budget_claude") = false \/
       truthy_str (secret_key_of env "budget_claude") = false) /\
      line = "✗ Error: " +:+ exc_str (configuration_error "budget_claude"))).
Proof.
  unfold tracing_main, try_except_class.
  destruct (truthy_str (public_key_of env "budget_claude")) eqn:Hp;
    [destruct (truthy_str (secret_key_of env "budget_claude")) eqn:Hs|].
  - rewrite (bind_return _ _ _ _ _
               (get_langfuse_client_truthy env "budget_claude" _ w Hp Hs)).
    eexists. split; [reflexivity|]. left. auto.
  - rewrite (bind_raise _ _ _ _ _
               (get_langfuse_client_falsy env "budget_claude" _ w (or_intror Hs))).
    eexists. split; [reflexivity|]. right. auto.
  - rewrite (bind_raise _ _ _ _ _
               (get_langfuse_client_falsy env "budget_claude" _ w (or_introl Hp))).
    eexists. split; [reflexivity|]. right. auto.
Qed.

(** X18: without a usable pair of keys, [main] prints its three heading
    lines, the error line with the text of the configuration error and the
    hint, and returns: it does not raise, does not read the clock, opens no
    trace and sends no request. *)
Theorem main_stops_without_keys (env : Env) (formats : Formats) (w : World) :
  truthy_str (public_key_of env PROJECT_NAME) = false \/
  truthy_str (secret_key_of env PROJECT_NAME) = false ->
  main env formats w =
  (Return tt,
   mkWorld (traces w) (http_log w) (clock_reads w)
     (stdout w ++
      [ nl +:+ rule;
        "Transaction Categorization with Langfuse Tracing";
        rule +:+ nl;
        "✗ Error: " +:+ exc_str (configuration_error PROJECT_NAME);
        nl +:+ "Please ensure your .env file is configured correctly." ])).
Proof.
  intros H. unfold main.
  rewrite !(bind_return _ _ _ _ _ (print_run _ _)).
  rewrite (bind_return _ _ _ _ _ (main_start_stops env _ H)).
  unfold mret, M_ret, with_lines, stopped_lines, printed.
  cbn [traces http_log clock_reads stdout].
  rewrite <- !app_assoc. reflexivity.
Qed.

Lemma main_stops_without_keys_witness :
  exists lines,
    main empty_key_env (mkFormats demo_format_2f demo_format_2f) initial_world =
      (Return tt, mkWorld [] [] 0%nat lines) /\
    length lines = 5%nat.
Proof.
  eexists. split.
  - apply (main_stops_without_keys empty_key_env (mkFormats demo_format_2f demo_format_2f)
             initial_world).
    left. reflexivity.
  - reflexivity.
Defined.

Lemma unit_outcome_cases (env : Env) (self : TransactionCategorizer)
    (transaction : Transaction) (w : World) :
  (exists category el,
     (unit_outcome env self transaction w).1 =
     result_of transaction category 0.95%float el) \/
  (exists e, (unit_outcome env self transaction w).1 = error_result transaction e).
Proof.
  unfold unit_outcome. rewrite categorize_transaction_run.
  destruct (unit_reading env transaction w) as [e0|[category usage]]; cbn [fst].
  - right. eexists. reflexivity.
  - left. eexists _, _. reflexivity.
Qed.

Lemma batch_amounts_sublist (env : Env) (self : TransactionCategorizer)
    (transactions : list Transaction) (w : World) :
  sublist (amounts (batch_results env self transactions w)) (map amount transactions).
Proof.
  revert w. induction transactions as [|transaction rest IH]; intros w;
    cbn [batch_results map].
  - constructor.
  - destruct (unit_outcome_cases env self transaction w)
      as [(category & el & ->)|(e & ->)].
    + rewrite amounts_categorized. apply sublist_skip, IH.
    + rewrite amounts_failed. apply sublist_cons, IH.
Qed.

Lemma batch_results_length (env : Env) (self : TransactionCategorizer)
    (transactions : list Transaction) (w : World) :
  length (batch_results env self transactions w) = length transactions.
Proof.
  revert w. induction transactions as [|transaction rest IH]; intros w;
    cbn [batch_results length]; [reflexivity|].
  f_equal. apply IH.
Qed.

(** X19: the loop of [main] over the results of a batch never raises and
    prints one line per result.  The total it returns starts as the integer 0
    and has the amounts of the results without ["error"] added to it, one by
    one in order, as floats; those amounts are amounts of the batch's
    transactions, in input order, the failed units left out; when every unit
    failed the total is still the integer 0. *)
Theorem displayed_total_adds_categorized_amounts
    (env : Env) (formats : Formats) (self : TransactionCategorizer)
    (transactions : list Transaction) (w w2 : World) :
  exists results w1 lines,
    categorize_batch env self transactions w = (Return results, w1) /\
    show_results env formats results (NInt 0) w2 =
      (Return (fold_left add_amount (amounts results) (NInt 0)),
       mkWorld (traces w2) (http_log w2) (clock_reads w2) (stdout w2 ++ lines)) /\
    length lines = length results /\
    sublist (amounts results) (map amount transactions) /\
    (amounts results = [] -> fold_left add_amount (amounts results) (NInt 0) = NInt 0) /\
    (forall x xs, amounts results = x :: xs ->
       fold_left add_amount (amounts results) (NInt 0) =
       NFloat (fold_left PrimFloat.add xs (0 + x)%float)).
Proof.
  destruct (show_results_run env formats (batch_results env self transactions w)
              (NInt 0) w2 (batch_results_shape env self transactions w) eq_refl)
    as (lines & Hshow & Hlen).
  exists (batch_results env self transactions w),
         (batch_world env self transactions w), lines.
  split; [apply (batch_loop_run env self transactions [] w)|].
  split; [exact Hshow|]. split; [exact Hlen|].
  split; [apply batch_amounts_sublist|].
  split; [intros ->; reflexivity|].
  intros x xs ->. cbn [fold_left add_amount].
  change (SF2Prim (binary_normalize prec emax 0 0 false)) with 0%float.
  generalize (0 + x)%float. clear.
  induction xs as [|y ys IH]; intros acc; [reflexivity|].
  cbn [fold_left add_amount]. apply IH.
Qed.

(** X20: with both keys in place and a finite clock, [main] returns,
    whatever the server answers: it opens one trace and sends one request for
    each of its five sample transactions, in order, and prints 24 lines. *)
Theorem main_runs_the_five_samples
    (env : Env) (formats : Formats) (pk sk : string) (seconds : Z) (w : World) :
  public_key_of env PROJECT_NAME = Some pk -> pk <> "" ->
  secret_key_of env PROJECT_NAME = Some sk -> sk <> "" ->
  int_of_float (time_time env (clock_reads w)) = Some seconds ->
  exists w' new lines,
    main env formats w = (Return tt, w') /\
    traces w' = traces w ++ new /\
    length new = 5%nat /\
    Forall (fun t => session_id t = Some (PROJECT_NAME +:+ "_" +:+ pretty seconds)) new /\
    http_log w' = http_log w ++ map (unit_request env) sample_transactions /\
    stdout w' = stdout w ++ lines /\
    length lines = 24%nat.
Proof.
  intros Hp Hpk Hs Hsk Hint.
  set (self := mkCategorizer (mkClient pk sk default_langfuse_host) PROJECT_NAME
                 (PROJECT_NAME +:+ "_" +:+ pretty seconds)).
  unfold main.
  rewrite !(bind_return _ _ _ _ _ (print_run _ _)).
  match goal with
  | |- context [(main_start env ≫= _) ?w0] =>
      rewrite (bind_return _ _ _ _ _
                 (main_start_returns env pk sk seconds w0 Hp Hpk Hs Hsk Hint))
  end.
  fold self.
  rewrite (bind_return _ _ _ _ _ (print_run _ _)).
  unfold categorize_batch.
  rewrite (bind_return _ _ _ _ _ (batch_loop_run env self sample_transactions [] _)).
  rewrite !(bind_return _ _ _ _ _ (print_run _ _)).
  cbn [app].
  match goal with
  | |- context [batch_results env self sample_transactions ?w3] =>
      set (w3' := w3);
      destruct (batch_facts env self sample_transactions w3')
        as (new & blines & Ht & Hh & Ho & Hblen & Hofs & _ & _);
      pose proof (batch_results_shape env self sample_transactions w3') as Hshape
  end.
  match goal with
  | |- context [(show_results env formats ?rs (NInt 0) ≫= _) ?w5] =>
      destruct (show_results_run env formats rs (NInt 0) w5 Hshape eq_refl)
        as (rlines & Hshow & Hrlen)
  end.
  rewrite (bind_return _ _ _ _ _ Hshow).
  rewrite (bind_return _ _ _ _ _
             (format_total_run _ _ _ _ (total_after_small _ (NInt 0) eq_refl))).
  rewrite !(bind_return _ _ _ _ _ (print_run _ _)).
  rewrite print_run.
  eexists _, new, _.
  split; [reflexivity|].
  unfold printed; cbn [traces http_log clock_reads stdout].
  rewrite Ht, Hh, Ho.
  subst w3'. unfold printed, with_lines, ticked; cbn [traces http_log clock_reads stdout].
  split; [reflexivity|].
  split; [symmetry; apply (Forall2_length _ _ _ Hofs)|].
  split.
  { clear -Hofs. induction Hofs as [|tx t txs ts (_ & _ & Hsid & _) _ IH];
      constructor; [exact Hsid|exact IH]. }
  split; [reflexivity|].
  split; [rewrite <- !app_assoc; reflexivity|].
  rewrite !length_app, Hblen, Hrlen.
  rewrite batch_results_length.
  reflexivity.
Qed.

Lemma main_runs_the_five_samples_witness :
  exists w' new lines,
    main flaky_env (mkFormats demo_format_2f demo_format_2f) initial_world
      = (Return tt, w') /\
    traces w' = new /\
    length new = 5%nat /\
    stdout w' = lines /\
    length lines = 24%nat.
Proof.
  destruct (main_runs_the_five_samples flaky_env (mkFormats demo_format_2f demo_format_2f)
              "pk-lf-2" "sk-lf-2" 1700000000 initial_world
              eq_refl ltac:(discriminate) eq_refl ltac:(discriminate) eq_refl)
    as (w' & new & lines & Hrun & Ht & Hlen & _ & _ & Ho & Hlines).
  exists w', new, lines.
  split; [exact Hrun|]. split; [exact Ht|]. split; [exact Hlen|].
  split; [exact Ho|exact Hlines].
Defined.

(** ** The prompt *)

